(** * quadsim: the cascaded flight controller ([cascaded.py])

    A shallow embedding of the thrust policies, the two frame constructors
    and the two [response] methods of [cascaded.py], with the properties
    the specification states about them.

    Numbers.  The program computes in numpy's float64.  The embedding
    idealises every float as a real number: [+], [*], [sqrt], [sin], [cos]
    are the exact operations of [R], so "equal" below is equality of reals
    and says nothing about rounding.  A division whose divisor is zero has
    no real value: numpy answers nan or inf there and goes on.  Two things
    can happen to such a value.  Where it is a column of the matrix handed
    to scipy's [R.from_matrix] (lines 25, 28, 35, 38, 76, 175, 180), the
    call raises there, and nothing is done in between: the embedding stops
    at the division with the fault [DivByZero].  Where it flows into the
    result (the [1 / u] of lines 84 and 193), the call goes on and returns:
    the embedding carries the value as [NonFinite]. *)

From Stdlib Require Import Reals Lra Lia List String Bool Arith.
Import ListNotations.
Open Scope R_scope.

(** ** Outcomes of a computation *)

(** [NameError] is Python's exception for a name bound nowhere;
    [DivByZero] marks a zero divisor whose nan ends in an exception (see
    the header). *)
Inductive fault : Type :=
| NameError (name : string)
| DivByZero.

Inductive res (A : Type) : Type :=
| Ok (a : A)
| Fail (f : fault).
Arguments Ok {A} a.
Arguments Fail {A} f.

Definition rbind {A B : Type} (m : res A) (k : A -> res B) : res B :=
  match m with
  | Ok a => k a
  | Fail f => Fail f
  end.

Declare Scope res_scope.
Delimit Scope res_scope with res.
Notation "'let?' x ':=' m 'in' k" := (rbind m (fun x => k))
  (at level 10, x name, m at level 100, k at level 200) : res_scope.

(** ** Vectors and matrices (numpy arrays of shape (3,) and (3,3)) *)

Record V3 : Type := mkV3 { vx : R; vy : R; vz : R }.

(** A 3x3 array, by rows. *)
Record Mat : Type := mkMat { row0 : V3; row1 : V3; row2 : V3 }.

(** A float array of shape (3,) as the program may hold it: one whose
    entries are all real numbers, or one with an entry that is inf or nan. *)
Inductive FArr : Type :=
| Finite (v : V3)
| NonFinite.
Coercion Finite : V3 >-> FArr.

Definition vzero : V3 := mkV3 0 0 0.
Definition vadd (a b : V3) : V3 := mkV3 (vx a + vx b) (vy a + vy b) (vz a + vz b).
Definition vsub (a b : V3) : V3 := mkV3 (vx a - vx b) (vy a - vy b) (vz a - vz b).
Definition vneg (a : V3) : V3 := mkV3 (- vx a) (- vy a) (- vz a).
Definition vscale (k : R) (a : V3) : V3 := mkV3 (k * vx a) (k * vy a) (k * vz a).

(** [a.dot(b)] on two vectors. *)
Definition dot (a b : V3) : R := vx a * vx b + vy a * vy b + vz a * vz b.

(** [np.cross(a, b)]. *)
Definition cross (a b : V3) : V3 :=
  mkV3 (vy a * vz b - vz a * vy b)
       (vz a * vx b - vx a * vz b)
       (vx a * vy b - vy a * vx b).

(** [np.linalg.norm(a)]. *)
Definition norm (a : V3) : R := sqrt (dot a a).

(** [x / d] for scalars, where it has a value. *)
Definition rdiv (x d : R) : res R :=
  if Req_dec_T d 0 then Fail DivByZero else Ok (x / d).

(** [a / d] for an array [a] and a scalar [d]. *)
Definition vdiv (a : V3) (d : R) : res V3 :=
  if Req_dec_T d 0 then Fail DivByZero
  else Ok (mkV3 (vx a / d) (vy a / d) (vz a / d)).

(** [np.eye(3)], [k * M], [M[i, j] = x] for the entry [2, 2], [M.dot(v)]. *)
Definition eye : Mat := mkMat (mkV3 1 0 0) (mkV3 0 1 0) (mkV3 0 0 1).
Definition mscale (k : R) (m : Mat) : Mat :=
  mkMat (vscale k (row0 m)) (vscale k (row1 m)) (vscale k (row2 m)).
Definition set22 (m : Mat) (x : R) : Mat :=
  mkMat (row0 m) (row1 m) (mkV3 (vx (row2 m)) (vy (row2 m)) x).
Definition mat_vec (m : Mat) (v : V3) : V3 :=
  mkV3 (dot (row0 m) v) (dot (row1 m) v) (dot (row2 m) v).
Definition diag (a b c : R) : Mat :=
  mkMat (mkV3 a 0 0) (mkV3 0 b 0) (mkV3 0 0 c).
Definition mzero : Mat := diag 0 0 0.

(** [np.column_stack((a, b, c))]: the matrix whose columns are [a], [b], [c]. *)
Definition column_stack (a b c : V3) : Mat :=
  mkMat (mkV3 (vx a) (vx b) (vx c))
        (mkV3 (vy a) (vy b) (vy c))
        (mkV3 (vz a) (vz b) (vz c)).

Definition col0 (m : Mat) : V3 := mkV3 (vx (row0 m)) (vx (row1 m)) (vx (row2 m)).
Definition col1 (m : Mat) : V3 := mkV3 (vy (row0 m)) (vy (row1 m)) (vy (row2 m)).
Definition col2 (m : Mat) : V3 := mkV3 (vz (row0 m)) (vz (row1 m)) (vz (row2 m)).
Definition transpose (m : Mat) : Mat := mkMat (col0 m) (col1 m) (col2 m).

(** Determinant, as the triple product of the columns. *)
Definition det (m : Mat) : R := dot (col0 m) (cross (col1 m) (col2 m)).

(** ** Rotations (scipy's [Rotation])

    A rotation is represented by its matrix.  [R.from_matrix(M)] returns
    the rotation whose matrix is [M] when [M] is a proper rotation matrix,
    which is the only case the theorems below use it in; [rot.apply(v)] is
    the matrix-vector product and [rot.inv()] the transposed matrix. *)
Definition Rot : Type := Mat.
Definition from_matrix (m : Mat) : Rot := m.
Definition apply (r : Rot) (v : V3) : V3 := mat_vec r v.
Definition inv (r : Rot) : Rot := transpose r.
Definition identity : Rot := eye.

(** ** Names of the module

    [cascaded.py] imports [e1], [e2], [e3] and [normalized] from
    [python_utils.mathu] (another package): the unit vectors of the three
    axes and [x / np.linalg.norm(x)].  The vectors bound at module level
    are listed in [module_globals]; a name looked up and not found there
    raises [NameError], as in Python. *)
Definition e1 : V3 := mkV3 1 0 0.
Definition e2 : V3 := mkV3 0 1 0.
Definition e3 : V3 := mkV3 0 0 1.

Definition module_globals : list (string * V3) :=
  [("e1"%string, e1); ("e2"%string, e2); ("e3"%string, e3)].

Fixpoint lookup_name (name : string) (env : list (string * V3)) : option V3 :=
  match env with
  | [] => None
  | (n, v) :: rest => if String.eqb n name then Some v else lookup_name name rest
  end.

Definition global (name : string) : res V3 :=
  match lookup_name name module_globals with
  | Some v => Ok v
  | None => Fail (NameError name)
  end.

Definition normalized (x : V3) : res V3 := vdiv x (norm x).

(** ** Thrust policies (lines 12-21) *)

Definition thrust_project_z (accel_des : V3) (rot : Rot) : res R :=
  (let? e3 := global "e3" in
   let z_b := apply rot e3 in
   Ok (dot accel_des z_b))%res.

Definition thrust_norm_accel (accel_des : V3) (rot : Rot) : res R :=
  Ok (norm accel_des).

Definition thrust_maintain_z (accel_des : V3) (rot : Rot) : res R :=
  (let? z_w := global "z_w" in
   let z_b := apply rot z_w in
   let? e3 := global "e3" in
   rdiv (dot accel_des e3) (dot z_b e3))%res.

(** ** Frame constructors (lines 23-41) *)

Definition rot_from_z_yaw_zyx (z : V3) (yaw : R) : res Rot :=
  (let? z := normalized z in
   let y_c := mkV3 (- sin yaw) (cos yaw) 0 in
   let? x_b := normalized (cross y_c z) in
   let y_b := cross z x_b in
   Ok (from_matrix (column_stack x_b y_b z)))%res.

Definition rot_from_z_yaw_zxy (z : V3) (yaw : R) : res Rot :=
  (let? z := normalized z in
   let x_c := mkV3 (cos yaw) (sin yaw) 0 in
   let? y_b := normalized (cross z x_c) in
   let x_b := cross y_b z in
   Ok (from_matrix (column_stack x_b y_b z)))%res.

(** ** Collaborators of the controllers *)

(** The vehicle state handed to [response]. *)
Record State : Type := mkState {
  pos : V3;
  vel : V3;
  rot : Rot;
  ang : V3
}.

(** The reference trajectory held in the controller's [ref] slot. *)
Record Reference : Type := mkReference {
  ref_pos : R -> V3;
  ref_vel : R -> V3;
  ref_acc : R -> V3;
  ref_jerk : R -> V3;
  ref_snap : R -> V3;
  ref_yaw : R -> R;
  ref_yawvel : R -> R;
  ref_yawacc : R -> R
}.

(** The vehicle model: [model.mass], [model.g], [model.I]. *)
Record Model : Type := mkModel {
  mass : R;
  g : R;
  inertia : Mat
}.

(** Modelled from the spec: [Controller.out] is in [quadsim.control], which
    is not among the sources; the specification treats
    [self.out(thrust, torque)] as an opaque constructor of the command, the
    pair (thrust, torque). *)
Record Command : Type := out {
  thrust : R;
  torque : FArr
}.

(** Modelled from the spec: [torque_from_aa] is in [quadsim.control], which
    is not among the sources; the specification gives it as the rigid-body
    equation tau = I alpha + omega x (I omega). *)
Definition torque_from_aa (angaccel : V3) (I : Mat) (omega : V3) : V3 :=
  vadd (mat_vec I angaccel) (cross omega (mat_vec I omega)).

(** The fields of a controller object.  [ref] is the slot of the base
    class [Controller]; the others are set by [__init__]. *)
Record Controller : Type := mkController {
  Kpos : Mat;
  Kvel : Mat;
  Krot : Mat;
  Kang : Mat;
  gvec : V3;
  rot_metric : Rot -> Rot -> V3;
  u_f : V3 -> Rot -> res R;
  model : Model;
  ref : Reference
}.

(** [CascadedController.__init__] (lines 44-60) and the same assignments
    of [CascadedControllerLearnAccel.__init__] (lines 122-136); [ref0] is
    what the base class's slot holds when [response] is called. *)
Definition init (model : Model) (rot_metric : Rot -> Rot -> V3)
    (u_f : V3 -> Rot -> res R) (ref0 : Reference) : Controller :=
  let Kpos := mscale 6 eye in
  let Kvel := mscale 4 eye in
  let Krot := mscale 120 eye in
  let Kang := mscale 16 eye in
  let Krot := set22 Krot 30 in
  let Kang := set22 Kang 10 in
  let gvec := mkV3 0 0 (- g model) in
  mkController Kpos Kvel Krot Kang gvec rot_metric u_f model ref0.

(** ** Stateful computations

    A method body runs over a state [S] (the object it is called on, and
    for the learning controller also the arrays it has allocated and the
    calls it has made to the learner) and either returns or stops with a
    fault. *)
Definition M (S A : Type) : Type := S -> res A * S.

Definition ret {S A : Type} (a : A) : M S A := fun s => (Ok a, s).

Definition bind {S A B : Type} (m : M S A) (k : A -> M S B) : M S B :=
  fun s =>
    match m s with
    | (Ok a, s') => k a s'
    | (Fail f, s') => (Fail f, s')
    end.

(** Read a field of the state. *)
Definition gets {S A : Type} (f : S -> A) : M S A := fun s => (Ok (f s), s).

(** Replace the state. *)
Definition modify {S : Type} (f : S -> S) : M S unit := fun s => (Ok tt, f s).

(** Run a computation that has no state. *)
Definition lift {S A : Type} (r : res A) : M S A := fun s => (r, s).

Declare Scope m_scope.
Delimit Scope m_scope with M.
Notation "x <- m ;; k" := (bind m (fun x => k))
  (at level 61, m at next level, right associativity) : m_scope.
Notation "' pat <- m ;; k" := (bind m (fun x => match x with pat => k end))
  (at level 61, pat pattern, m at next level, right associativity) : m_scope.

Section Controllers.

(** [get_xdot_xddot] is in [quadsim.flatness], which is not among the
    sources, and the specification gives no formula for it: it is a
    parameter of everything below. *)
Variable get_xdot_xddot : R -> R -> V3 -> V3 -> V3 -> V3 -> V3 * V3.

(** *** Lines 83-86: the rates of the thrust direction

    When [u] is zero, [1 / u] is inf (numpy warns and goes on): every
    entry of [zdotdes] = inf * (...) is inf or nan, [uddot] contains
    [u * zdotdes.dot(zdotdes)] = 0 * inf = nan, and every entry of
    [zddotdes] is nan.  [udot] does not involve the quotient. *)
Definition z_rates (u : R) (z_b jerkdes snapdes : V3) : R * FArr * FArr :=
  let udot := dot jerkdes z_b in
  if Req_dec_T u 0 then (udot, NonFinite, NonFinite)
  else
    let inv_u := 1 / u in
    let zdotdes := vscale inv_u (vsub jerkdes (vscale udot z_b)) in
    let uddot := dot snapdes z_b + u * dot zdotdes zdotdes in
    let zddotdes :=
      vscale inv_u
        (vsub (vsub snapdes (vscale (2 * udot) zdotdes)) (vscale uddot z_b)) in
    (udot, Finite zdotdes, Finite zddotdes).

(** *** Lines 88-116: angular rates, attitude loop, thrust and torque,
    for rates with real entries.
    Both classes have this text verbatim (lines 197-225 in the second);
    the result is the pair ([bodyz_force], [torque]). *)
Definition attitude_loop (Krot Kang : Mat) (rot_metric : Rot -> Rot -> V3)
    (model : Model) (state : State) (yawveldes yawaccdes : R)
    (rot_des : Rot) (x_b y_b z_b : V3) (u : R) (zdotdes zddotdes : V3)
    : R * V3 :=
  let angveldesxy_w := cross z_b zdotdes in
  let angaccdesxy_w :=
    cross z_b (vsub zddotdes (cross angveldesxy_w zdotdes)) in
  let '(xdot, xddot) :=
    get_xdot_xddot yawveldes yawaccdes x_b z_b zdotdes zddotdes in
  let omega_z_bdes := dot xdot y_b in
  let angveldesxy_bdes := apply (inv rot_des) angveldesxy_w in
  let angveldes_bdes :=
    mkV3 (vx angveldesxy_bdes) (vy angveldesxy_bdes) omega_z_bdes in
  let angveldes_w := apply rot_des angveldes_bdes in
  let alpha_cross_x := vsub xddot (cross angveldes_w xdot) in
  let alpha_z_bdes := dot alpha_cross_x y_b in
  let angaccdesxy_bdes := apply (inv rot_des) angaccdesxy_w in
  let angaccdes_bdes :=
    mkV3 (vx angaccdesxy_bdes) (vy angaccdesxy_bdes) alpha_z_bdes in
  let angveldes_b := apply (inv (rot state)) angveldes_w in
  let angaccdes_b :=
    apply (inv (rot state)) (apply rot_des angaccdes_bdes) in
  let rot_error := rot_metric (rot state) rot_des in
  let angaccel :=
    vadd (vsub (vneg (mat_vec Krot rot_error))
               (mat_vec Kang (vsub (ang state) angveldes_b)))
         angaccdes_b in
  let bodyz_force := mass model * u in
  let torque := torque_from_aa angaccel (inertia model) (ang state) in
  (bodyz_force, torque).

(** *** Lines 88-116 on the rates as the program holds them.

    With real rates this is [attitude_loop].  A rate with an inf or nan
    entry makes [angaccdesxy_w] or [angveldesxy_w] (lines 88-89)
    non-finite; the products with the rotation matrices and the sums of
    lines 95-113 carry that into [angaccel], and the products with the
    inertia matrix into every entry of [torque] (inf * 0 and inf - inf are
    nan).  [bodyz_force] (line 115) is [mass * u] whatever the rates are.
    [get_xdot_xddot], the rotation metric and [torque_from_aa] are taken
    to return on such arguments, as numpy code does. *)
Definition attitude_floats (Krot Kang : Mat) (rot_metric : Rot -> Rot -> V3)
    (model : Model) (state : State) (yawveldes yawaccdes : R)
    (rot_des : Rot) (x_b y_b z_b : V3) (u : R) (zdotdes zddotdes : FArr)
    : R * FArr :=
  match zdotdes, zddotdes with
  | Finite zdotdes, Finite zddotdes =>
      let '(bodyz_force, torque) :=
        attitude_loop Krot Kang rot_metric model state yawveldes yawaccdes
          rot_des x_b y_b z_b u zdotdes zddotdes in
      (bodyz_force, Finite torque)
  | _, _ => (mass model * u, NonFinite)
  end.

(** *** [CascadedController.response] (lines 62-118)

    The state is the controller object [self]: every [self.x] is a read of
    the state. *)

(** Lines 64-66. *)
Definition position_loop (t : R) (state : State) : M Controller V3 :=
  (r <- gets ref;;
   let pos_error := vsub (pos state) (ref_pos r t) in
   r <- gets ref;;
   let vel_error := vsub (vel state) (ref_vel r t) in
   kpos <- gets Kpos;;
   kvel <- gets Kvel;;
   gv <- gets gvec;;
   r <- gets ref;;
   ret (vadd (vsub (vsub (vneg (mat_vec kpos pos_error))
                         (mat_vec kvel vel_error))
                   gv)
             (ref_acc r t)))%M.

Definition response (t : R) (state : State) : M Controller Command :=
  (* Position Control *)
  (accel_des <- position_loop t state;;
   r <- gets ref;;
   let jerkdes := ref_jerk r t in
   r <- gets ref;;
   let snapdes := ref_snap r t in
   (* Reference Conversion *)
   r <- gets ref;;
   let yawdes := ref_yaw r t in
   r <- gets ref;;
   let yawveldes := ref_yawvel r t in
   r <- gets ref;;
   let yawaccdes := ref_yawacc r t in
   z_b <- lift (vdiv accel_des (norm accel_des));;
   rot_des <- lift (rot_from_z_yaw_zyx z_b yawdes);;
   e1 <- lift (global "e1");;
   let x_b := apply rot_des e1 in
   e2 <- lift (global "e2");;
   let y_b := apply rot_des e2 in
   uf <- gets u_f;;
   u <- lift (uf accel_des (rot state));;
   let '(udot, zdotdes, zddotdes) := z_rates u z_b jerkdes snapdes in
   (* Attitude Control *)
   metric <- gets rot_metric;;
   krot <- gets Krot;;
   kang <- gets Kang;;
   m <- gets model;;
   let '(bodyz_force, torque) :=
     attitude_floats krot kang metric m state yawveldes yawaccdes
       rot_des x_b y_b z_b u zdotdes zddotdes in
   ret (out bodyz_force torque))%M.

(** *** The learner and the learning controller's world *)

(** The learner's three queries, [self.accel_learner.testpoint], [.dpos]
    and [.dvel]: functions of (t, state, control). *)
Record Learner : Type := mkLearner {
  testpoint : R -> State -> V3 -> V3;
  dpos : R -> State -> V3 -> Mat;
  dvel : R -> State -> V3 -> Mat
}.

(** The calls [response] makes on the learner, with their arguments; an
    array argument is recorded with the contents it has when the call is
    made. *)
Inductive LearnerCall : Type :=
| CallTestpoint (t : R) (state : State) (control : V3)
| CallDpos (t : R) (state : State) (control : V3)
| CallDvel (t : R) (state : State) (control : V3)
| CallAddDatapoint (t : R) (state : State) (control : R * FArr).

(** What a call of [CascadedControllerLearnAccel.response] runs over: the
    object ([self_ctrl] for the fields the two classes share, and
    [accel_learner]), the numpy arrays the call has allocated and later
    updates in place ([arrays], indexed by the references handed out by
    [new_array]), and the log of calls on the learner. *)
Record World : Type := mkWorld {
  self_ctrl : Controller;
  accel_learner : Learner;
  arrays : nat -> V3;
  next_ref : nat;
  calls : list LearnerCall
}.

(** Binding a name to the value of an expression: a fresh array. *)
Definition new_array (v : V3) : M World nat :=
  fun w =>
    (Ok (next_ref w),
     mkWorld (self_ctrl w) (accel_learner w)
       (fun l => if Nat.eqb l (next_ref w) then v else arrays w l)
       (S (next_ref w)) (calls w)).

Definition read_array (l : nat) : M World V3 := gets (fun w => arrays w l).

(** An in-place update, [a -= b] or [a /= b]: the array keeps its
    reference and every name bound to it sees the new contents. *)
Definition write_array (l : nat) (v : V3) : M World unit :=
  modify (fun w =>
    mkWorld (self_ctrl w) (accel_learner w)
      (fun l' => if Nat.eqb l' l then v else arrays w l')
      (next_ref w) (calls w)).

Definition log_call (c : LearnerCall) : M World unit :=
  modify (fun w =>
    mkWorld (self_ctrl w) (accel_learner w) (arrays w) (next_ref w)
      (calls w ++ [c])).

Definition call_testpoint (t : R) (state : State) (control : nat) : M World V3 :=
  (c <- read_array control;;
   _ <- log_call (CallTestpoint t state c);;
   gets (fun w => testpoint (accel_learner w) t state c))%M.

Definition call_dpos (t : R) (state : State) (control : nat) : M World Mat :=
  (c <- read_array control;;
   _ <- log_call (CallDpos t state c);;
   gets (fun w => dpos (accel_learner w) t state c))%M.

Definition call_dvel (t : R) (state : State) (control : nat) : M World Mat :=
  (c <- read_array control;;
   _ <- log_call (CallDvel t state c);;
   gets (fun w => dvel (accel_learner w) t state c))%M.

(** Modelled from the spec: [add_datapoint] is a method of the base class
    [ControllerLearnAccel] in [quadsim.control], which is not among the
    sources; the specification says it records (t, state, (thrust, torque))
    as a training example in the learner's dataset. *)
Definition add_datapoint (t : R) (state : State) (control : R * FArr) : M World unit :=
  log_call (CallAddDatapoint t state control).

(** *** [CascadedControllerLearnAccel.response] (lines 140-229)

    [accel_des] and [control_for_learner] are two names of one array
    (line 154 binds the second name to the object of the first), and line
    158 updates that array in place; both names are therefore references
    into [arrays].  [x_b] is updated in place too (line 180) but has one
    name only, so it is kept as a value. *)
Definition response_learn (t : R) (state : State) : M World Command :=
  (r <- gets (fun w => ref (self_ctrl w));;
   let posref := ref_pos r t in
   r <- gets (fun w => ref (self_ctrl w));;
   let velref := ref_vel r t in
   r <- gets (fun w => ref (self_ctrl w));;
   let accref := ref_acc r t in
   r <- gets (fun w => ref (self_ctrl w));;
   let jerkref := ref_jerk r t in
   r <- gets (fun w => ref (self_ctrl w));;
   let snapref := ref_snap r t in
   (* Position Control *)
   let pos_error := vsub (pos state) posref in
   let vel_error := vsub (vel state) velref in
   kpos <- gets (fun w => Kpos (self_ctrl w));;
   kvel <- gets (fun w => Kvel (self_ctrl w));;
   gv <- gets (fun w => gvec (self_ctrl w));;
   accel_des <-
     new_array
       (vadd (vsub (vsub (vneg (mat_vec kpos pos_error))
                         (mat_vec kvel vel_error))
                   gv)
             accref);;
   let control_for_learner := accel_des in
   acc_error <- call_testpoint t state control_for_learner;;
   a <- read_array accel_des;;
   _ <- write_array accel_des (vsub a acc_error);;
   dpos_ <- call_dpos t state control_for_learner;;
   dvel_ <- call_dvel t state control_for_learner;;
   let aed1 := vadd (mat_vec dvel_ accref) (mat_vec dpos_ velref) in
   let aed2 := vadd (mat_vec dvel_ jerkref) (mat_vec dpos_ accref) in
   let jerkdes := vsub jerkref aed1 in
   let snapdes := vsub snapref aed2 in
   (* Reference Conversion *)
   r <- gets (fun w => ref (self_ctrl w));;
   let yawdes := ref_yaw r t in
   r <- gets (fun w => ref (self_ctrl w));;
   let yawveldes := ref_yawvel r t in
   r <- gets (fun w => ref (self_ctrl w));;
   let yawaccdes := ref_yawacc r t in
   a <- read_array accel_des;;
   z_b <- lift (vdiv a (norm a));;
   (* ZYX Euler angles yaw *)
   let c2 := mkV3 (- sin yawdes) (cos yawdes) 0 in
   let x_b := cross c2 z_b in
   x_b <- lift (vdiv x_b (norm x_b));;
   let y_b := cross z_b x_b in
   let rot_des := from_matrix (column_stack x_b y_b z_b) in
   uf <- gets (fun w => u_f (self_ctrl w));;
   a <- read_array accel_des;;
   u <- lift (uf a (rot state));;
   let '(udot, zdotdes, zddotdes) := z_rates u z_b jerkdes snapdes in
   (* Attitude Control *)
   metric <- gets (fun w => rot_metric (self_ctrl w));;
   krot <- gets (fun w => Krot (self_ctrl w));;
   kang <- gets (fun w => Kang (self_ctrl w));;
   m <- gets (fun w => model (self_ctrl w));;
   let '(bodyz_force, torque) :=
     attitude_floats krot kang metric m state yawveldes yawaccdes
       rot_des x_b y_b z_b u zdotdes zddotdes in
   _ <- add_datapoint t state (bodyz_force, torque);;
   ret (out bodyz_force torque))%M.


(** *** The values the two methods compute

    [response] and [response_learn] only read the controller; the
    functions below give what they return as plain expressions over the
    controller's fields.  They are proved equal to the methods
    ([response_run], [response_learn_run]) and serve in the proofs. *)

Definition accel_des_value (c : Controller) (t : R) (state : State) : V3 :=
  vadd (vsub (vsub (vneg (mat_vec (Kpos c) (vsub (pos state) (ref_pos (ref c) t))))
                   (mat_vec (Kvel c) (vsub (vel state) (ref_vel (ref c) t))))
             (gvec c))
       (ref_acc (ref c) t).

Definition flat_tail (c : Controller) (t : R) (state : State) (rot_des : Rot)
    (x_b y_b z_b accel_des jerkdes snapdes : V3) : res (R * FArr) :=
  (let? u := u_f c accel_des (rot state) in
   let '(udot, zdotdes, zddotdes) := z_rates u z_b jerkdes snapdes in
   Ok (attitude_floats (Krot c) (Kang c) (rot_metric c) (model c) state
         (ref_yawvel (ref c) t) (ref_yawacc (ref c) t)
         rot_des x_b y_b z_b u zdotdes zddotdes))%res.

Definition response_value (c : Controller) (t : R) (state : State) : res Command :=
  (let accel_des := accel_des_value c t state in
   let? z_b := vdiv accel_des (norm accel_des) in
   let? rot_des := rot_from_z_yaw_zyx z_b (ref_yaw (ref c) t) in
   let? p := flat_tail c t state rot_des (apply rot_des e1) (apply rot_des e2)
               z_b accel_des (ref_jerk (ref c) t) (ref_snap (ref c) t) in
   Ok (out (fst p) (snd p)))%res.

(** The array [accel_des] after line 158. *)
Definition corrected_accel (c : Controller) (L : Learner) (t : R) (state : State) : V3 :=
  let a0 := accel_des_value c t state in
  vsub a0 (testpoint L t state a0).

Definition learn_value (c : Controller) (L : Learner) (t : R) (state : State)
    : res (R * FArr) :=
  (let a1 := corrected_accel c L t state in
   let accref := ref_acc (ref c) t in
   let velref := ref_vel (ref c) t in
   let jerkref := ref_jerk (ref c) t in
   let snapref := ref_snap (ref c) t in
   let dpos_ := dpos L t state a1 in
   let dvel_ := dvel L t state a1 in
   let jerkdes :=
     vsub jerkref (vadd (mat_vec dvel_ accref) (mat_vec dpos_ velref)) in
   let snapdes :=
     vsub snapref (vadd (mat_vec dvel_ jerkref) (mat_vec dpos_ accref)) in
   let? z_b := vdiv a1 (norm a1) in
   let c2 := mkV3 (- sin (ref_yaw (ref c) t)) (cos (ref_yaw (ref c) t)) 0 in
   let? x_b := vdiv (cross c2 z_b) (norm (cross c2 z_b)) in
   let y_b := cross z_b x_b in
   flat_tail c t state (from_matrix (column_stack x_b y_b z_b)) x_b y_b z_b
     a1 jerkdes snapdes)%res.

(** The world after the three queries of lines 157-161. *)
Definition world_after_queries (t : R) (state : State) (w : World) : World :=
  let c := self_ctrl w in
  let L := accel_learner w in
  let a0 := accel_des_value c t state in
  let a1 := corrected_accel c L t state in
  mkWorld c L
    (fun l' => if Nat.eqb l' (next_ref w) then a1
               else if Nat.eqb l' (next_ref w) then a0 else arrays w l')
    (S (next_ref w))
    (((calls w ++ [CallTestpoint t state a0]) ++ [CallDpos t state a1])
       ++ [CallDvel t state a1]).

(** The world after line 227. *)
Definition after_add_datapoint (w1 : World) (t : R) (state : State) (p : R * FArr) : World :=
  mkWorld (self_ctrl w1) (accel_learner w1) (arrays w1) (next_ref w1)
    (calls w1 ++ [CallAddDatapoint t state p]).

End Controllers.

(** ** Vocabulary of the statements *)

(** [v / d] componentwise, as the specification writes its formulas; only
    used where [d] is not zero. *)
Definition over (v : V3) (d : R) : V3 := mkV3 (vx v / d) (vy v / d) (vz v / d).

(** A matrix whose columns are unit vectors, mutually orthogonal, and
    right-handed (determinant +1). *)
Definition is_frame (m : Mat) : Prop :=
  norm (col0 m) = 1 /\ norm (col1 m) = 1 /\ norm (col2 m) = 1 /\
  dot (col0 m) (col1 m) = 0 /\ dot (col0 m) (col2 m) = 0 /\
  dot (col1 m) (col2 m) = 0 /\
  det m = 1.

(** The constructor returned a frame whose third column is [z / |z|]. *)
Definition frame_along (r : res Rot) (z : V3) : Prop :=
  exists m, r = Ok m /\ is_frame m /\ col2 m = over z (norm z).

(** The hover scenario of the specification. *)
Definition hover_state : State := mkState vzero vzero identity vzero.

(** The hover state tilted by a quarter turn about the y axis: the body z
    axis lies along the world x axis. *)
Definition tilted_state : State :=
  mkState vzero vzero (column_stack (mkV3 0 0 (-1)) e2 e1) vzero.

Definition hover_ref : Reference :=
  mkReference (fun _ => vzero) (fun _ => vzero) (fun _ => vzero)
    (fun _ => vzero) (fun _ => vzero) (fun _ => 0) (fun _ => 0) (fun _ => 0).

Definition hover_model (I : Mat) : Model := mkModel 1 9.81 I.

(** A rotation metric that is zero on aligned rotations: the difference of
    the third columns.  Used to instantiate the statements. *)
Definition axis_metric (r r_des : Rot) : V3 := vsub (col2 r) (col2 r_des).

(** A learner that has learnt nothing, and one that reports a constant
    acceleration error. *)
Definition zero_learner : Learner :=
  mkLearner (fun _ _ _ => vzero) (fun _ _ _ => mzero) (fun _ _ _ => mzero).

Definition bias_learner (b : V3) : Learner :=
  mkLearner (fun _ _ _ => b) (fun _ _ _ => mzero) (fun _ _ _ => mzero).

(** An instance of the parameter [get_xdot_xddot], used to instantiate the
    statements: the x axis of a frame turning with angular velocity
    [z x zdot + yawvel z]. *)
Definition rigid_xdot_xddot (yawvel yawacc : R) (x z zdot zddot : V3) : V3 * V3 :=
  let omega := vadd (cross z zdot) (vscale yawvel z) in
  let alpha := vadd (cross z zddot) (vscale yawacc z) in
  (cross omega x, vadd (cross alpha x) (cross omega (cross omega x))).

Definition empty_world (c : Controller) (L : Learner) : World :=
  mkWorld c L (fun _ => vzero) 0 [].

Definition is_add_datapoint (c : LearnerCall) : bool :=
  match c with
  | CallAddDatapoint _ _ _ => true
  | _ => false
  end.

(** The rotation by [yaw] about the world z axis. *)
Definition yaw_rot (yaw : R) : Rot :=
  column_stack (mkV3 (cos yaw) (sin yaw) 0) (mkV3 (- sin yaw) (cos yaw) 0) e3.

(** A reference that stays at position [p] with heading [yaw]. *)
Definition const_ref (p : V3) (yaw : R) : Reference :=
  mkReference (fun _ => p) (fun _ => vzero) (fun _ => vzero)
    (fun _ => vzero) (fun _ => vzero) (fun _ => yaw) (fun _ => 0) (fun _ => 0).

(** The controller [c] with another reference in its [ref] slot, and the
    state [s] at another position. *)
Definition with_ref (c : Controller) (r : Reference) : Controller :=
  mkController (Kpos c) (Kvel c) (Krot c) (Kang c) (gvec c) (rot_metric c)
    (u_f c) (model c) r.

Definition with_pos (s : State) (p : V3) : State :=
  mkState p (vel s) (rot s) (ang s).

(** The reference [r] moved by the offset [d]. *)
Definition moved_ref (r : Reference) (d : V3) : Reference :=
  mkReference (fun t => vadd (ref_pos r t) d) (ref_vel r) (ref_acc r)
    (ref_jerk r) (ref_snap r) (ref_yaw r) (ref_yawvel r) (ref_yawacc r).

(** The reference of [c] with the learner's corrections of lines 157-168,
    taken at time [t] and state [state], subtracted from its acceleration,
    jerk and snap. *)
Definition shifted_ref (c : Controller) (L : Learner) (t : R) (state : State)
    : Reference :=
  let r := ref c in
  let a1 := vsub (accel_des_value c t state)
                 (testpoint L t state (accel_des_value c t state)) in
  let dpos_ := dpos L t state a1 in
  let dvel_ := dvel L t state a1 in
  mkReference (ref_pos r) (ref_vel r)
    (fun s => vsub (ref_acc r s) (testpoint L t state (accel_des_value c t state)))
    (fun s => vsub (ref_jerk r s)
                (vadd (mat_vec dvel_ (ref_acc r t)) (mat_vec dpos_ (ref_vel r t))))
    (fun s => vsub (ref_snap r s)
                (vadd (mat_vec dvel_ (ref_jerk r t)) (mat_vec dpos_ (ref_acc r t))))
    (ref_yaw r) (ref_yawvel r) (ref_yawacc r).

(** * Properties *)

(** ** Arithmetic of vectors *)

Lemma v3_ext (a b : V3) :
  vx a = vx b -> vy a = vy b -> vz a = vz b -> a = b.
Proof. destruct a, b; simpl; intros; subst; reflexivity. Qed.

Lemma global_e1 : global "e1" = Ok e1.
Proof. reflexivity. Qed.

Lemma global_e2 : global "e2" = Ok e2.
Proof. reflexivity. Qed.

Lemma global_e3 : global "e3" = Ok e3.
Proof. reflexivity. Qed.

Lemma global_z_w : global "z_w" = Fail (NameError "z_w").
Proof. reflexivity. Qed.

Lemma rdiv_ok (x d : R) : d <> 0 -> rdiv x d = Ok (x / d).
Proof. intros H; unfold rdiv; destruct (Req_dec_T d 0); [contradiction | reflexivity]. Qed.

Lemma rdiv_zero (x : R) : rdiv x 0 = Fail DivByZero.
Proof. unfold rdiv; destruct (Req_dec_T 0 0) as [_ | H]; [reflexivity | exfalso; now apply H]. Qed.

Lemma vdiv_ok (a : V3) (d : R) : d <> 0 -> vdiv a d = Ok (over a d).
Proof. intros H; unfold vdiv; destruct (Req_dec_T d 0); [contradiction | reflexivity]. Qed.

Lemma vdiv_zero (a : V3) : vdiv a 0 = Fail DivByZero.
Proof. unfold vdiv; destruct (Req_dec_T 0 0) as [_ | H]; [reflexivity | exfalso; now apply H]. Qed.

Lemma dot_self_nonneg (a : V3) : 0 <= dot a a.
Proof. unfold dot; nra. Qed.

Lemma dot_self_zero (a : V3) : dot a a = 0 -> a = vzero.
Proof.
  unfold dot; intros H.
  assert (vx a = 0) by nra. assert (vy a = 0) by nra. assert (vz a = 0) by nra.
  apply v3_ext; assumption.
Qed.

Lemma norm_sqr (a : V3) : norm a * norm a = dot a a.
Proof. unfold norm; apply sqrt_sqrt, dot_self_nonneg. Qed.

Lemma norm_nonneg (a : V3) : 0 <= norm a.
Proof. unfold norm; apply sqrt_pos. Qed.

Lemma norm_zero (a : V3) : norm a = 0 -> a = vzero.
Proof.
  intros H; apply dot_self_zero; rewrite <- norm_sqr, H; ring.
Qed.

Lemma norm_vzero : norm vzero = 0.
Proof. unfold norm, dot; simpl. replace (0 * 0 + 0 * 0 + 0 * 0) with 0 by ring. apply sqrt_0. Qed.

Lemma norm_nonzero (a : V3) : a <> vzero -> norm a <> 0.
Proof. intros H E; apply H, norm_zero, E. Qed.

Lemma norm_of_dot_one (a : V3) : dot a a = 1 -> norm a = 1.
Proof. intros H; unfold norm; rewrite H; apply sqrt_1. Qed.

Lemma dot_over (a b : V3) (d : R) :
  d <> 0 -> dot (over a d) (over b d) = dot a b / (d * d).
Proof. intros H; unfold dot, over; simpl; field; assumption. Qed.

Lemma dot_unit (a : V3) : a <> vzero -> dot (over a (norm a)) (over a (norm a)) = 1.
Proof.
  intros H; pose proof (norm_nonzero a H) as Hn.
  rewrite dot_over by assumption. rewrite norm_sqr.
  rewrite <- norm_sqr. field; assumption.
Qed.

Lemma norm_unit (a : V3) : a <> vzero -> norm (over a (norm a)) = 1.
Proof. intros H; apply norm_of_dot_one, dot_unit, H. Qed.

Lemma over_one (a : V3) : over a 1 = a.
Proof. apply v3_ext; unfold over; simpl; field. Qed.

Lemma normalized_ok (a : V3) : a <> vzero -> normalized a = Ok (over a (norm a)).
Proof. intros H; apply vdiv_ok, norm_nonzero, H. Qed.

Lemma normalized_unit (a : V3) : norm a = 1 -> normalized a = Ok a.
Proof.
  intros H; unfold normalized; rewrite H, vdiv_ok by lra. now rewrite over_one.
Qed.

Lemma normalized_vzero : normalized vzero = Fail DivByZero.
Proof. unfold normalized; rewrite norm_vzero; apply vdiv_zero. Qed.

(** ** The methods compute the values *)

Lemma response_run get_xdot_xddot (t : R) (state : State) (c : Controller) :
  response get_xdot_xddot t state c = (response_value get_xdot_xddot c t state, c).
Proof.
  unfold response, response_value, position_loop, flat_tail, bind, gets, lift, ret.
  fold (accel_des_value c t state).
  destruct (vdiv (accel_des_value c t state) (norm (accel_des_value c t state)))
    as [z_b |]; simpl; [| reflexivity].
  destruct (rot_from_z_yaw_zyx z_b (ref_yaw (ref c) t)) as [rot_des |]; simpl;
    [| reflexivity].
  destruct (u_f c (accel_des_value c t state) (rot state)) as [u |]; simpl;
    [| reflexivity].
  destruct (z_rates u z_b (ref_jerk (ref c) t) (ref_snap (ref c) t))
    as [[udot zdotdes] zddotdes].
  destruct (attitude_floats _ _ _ _ _ _ _ _ _ _ _ _ _ _ _); reflexivity.
Qed.

Lemma response_learn_run get_xdot_xddot (t : R) (state : State) (w : World) :
  response_learn get_xdot_xddot t state w =
    match learn_value get_xdot_xddot (self_ctrl w) (accel_learner w) t state with
    | Ok p =>
        (Ok (out (fst p) (snd p)),
         after_add_datapoint (world_after_queries t state w) t state p)
    | Fail f => (Fail f, world_after_queries t state w)
    end.
Proof.
  unfold response_learn, learn_value, flat_tail, world_after_queries,
    after_add_datapoint, corrected_accel, accel_des_value, rbind,
    call_testpoint, call_dpos, call_dvel, add_datapoint, log_call,
    new_array, read_array, write_array, bind, gets, modify, lift, ret.
  cbn -[z_rates attitude_floats].
  rewrite !Nat.eqb_refl.
  repeat match goal with
  | |- context [match vdiv ?a ?d with _ => _ end] =>
      destruct (vdiv a d); cbn; [| reflexivity]
  | |- context [match u_f ?c ?a ?r with _ => _ end] =>
      destruct (u_f c a r); cbn; [| reflexivity]
  end.
  match goal with
  | |- context [z_rates ?u ?z ?j ?s] =>
      destruct (z_rates u z j s) as [[? ?] ?]
  end.
  destruct (attitude_floats _ _ _ _ _ _ _ _ _ _ _ _ _ _ _); cbn.
  rewrite ?Nat.eqb_refl. reflexivity.
Qed.



(** ** Thrust policies *)

Lemma thrust_project_z_value (accel_des : V3) (r : Rot) :
  thrust_project_z accel_des r = Ok (dot accel_des (apply r e3)).
Proof. reflexivity. Qed.

(** C5.  [thrust_maintain_z] is written to return
    (accel_des . e3) / ((rot applied to world-z) . e3), but the world z
    axis is spelled [z_w], a name the module never binds: every call stops
    at line 20 with [NameError] and no quotient is returned. *)
Theorem thrust_maintain_z_raises (accel_des : V3) (r : Rot) :
  thrust_maintain_z accel_des r = Fail (NameError "z_w").
Proof. reflexivity. Qed.

(** ** The base controller *)

Lemma init_gains (m : Model) metric uf ref0 :
  Kpos (init m metric uf ref0) = diag 6 6 6 /\
  Kvel (init m metric uf ref0) = diag 4 4 4 /\
  Krot (init m metric uf ref0) = diag 120 120 30 /\
  Kang (init m metric uf ref0) = diag 16 16 10.
Proof.
  unfold init, mscale, set22, eye, diag, vscale; simpl.
  repeat split; f_equal; f_equal; ring.
Qed.

Lemma position_loop_run (t : R) (state : State) (c : Controller) :
  position_loop t state c = (Ok (accel_des_value c t state), c).
Proof. reflexivity. Qed.

(** C6.  A controller built by [__init__] has Kpos = diag(6,6,6),
    Kvel = diag(4,4,4), Krot = diag(120,120,30), Kang = diag(16,16,10), and
    the position loop of [response] returns
    -Kpos (pos - ref.pos t) - Kvel (vel - ref.vel t) - (0,0,-g) + ref.acc t,
    leaving the controller as it was. *)
Theorem position_loop_formula (m : Model) metric uf (ref0 : Reference)
    (t : R) (state : State) :
  let c := init m metric uf ref0 in
  Kpos c = diag 6 6 6 /\ Kvel c = diag 4 4 4 /\
  Krot c = diag 120 120 30 /\ Kang c = diag 16 16 10 /\
  position_loop t state c =
    (Ok (vadd (vsub (vsub (vneg (mat_vec (diag 6 6 6)
                                   (vsub (pos state) (ref_pos ref0 t))))
                          (mat_vec (diag 4 4 4)
                                   (vsub (vel state) (ref_vel ref0 t))))
                    (mkV3 0 0 (- g m)))
              (ref_acc ref0 t)),
     c).
Proof.
  intros c. destruct (init_gains m metric uf ref0) as (H1 & H2 & H3 & H4).
  repeat split; try assumption.
  rewrite position_loop_run. unfold accel_des_value. fold c.
  subst c. rewrite H1, H2. reflexivity.
Qed.

(** C8.  [response] returns the controller it was called on, field for
    field, and a second call with the same [t] and [state] returns the same
    outcome as the first. *)
Theorem response_pure get_xdot_xddot (t : R) (state : State) (self : Controller) :
  let run1 := response get_xdot_xddot t state self in
  let run2 := response get_xdot_xddot t state (snd run1) in
  snd run1 = self /\ snd run2 = self /\ fst run2 = fst run1.
Proof.
  cbv zeta. rewrite !response_run. simpl. rewrite ?response_run. simpl. auto.
Qed.

(** ** The flatness inversion *)

Lemma vscale_inv (u : R) (v : V3) : u <> 0 -> vscale (1 / u) v = over v u.
Proof. intros H; apply v3_ext; unfold vscale, over; simpl; field; assumption. Qed.

Lemma z_rates_ok (u : R) (z_b jerkdes snapdes : V3) :
  u <> 0 ->
  let zdotdes := over (vsub jerkdes (vscale (dot jerkdes z_b) z_b)) u in
  z_rates u z_b jerkdes snapdes =
    (dot jerkdes z_b, Finite zdotdes,
     Finite
       (over (vsub (vsub snapdes (vscale (2 * dot jerkdes z_b) zdotdes))
                   (vscale (dot snapdes z_b + u * dot zdotdes zdotdes) z_b)) u)).
Proof.
  intros H zdotdes. unfold z_rates.
  destruct (Req_dec_T u 0); [contradiction |].
  rewrite !vscale_inv by assumption. reflexivity.
Qed.

Lemma z_rates_zero (z_b jerkdes snapdes : V3) :
  z_rates 0 z_b jerkdes snapdes = (dot jerkdes z_b, NonFinite, NonFinite).
Proof.
  unfold z_rates. destruct (Req_dec_T 0 0) as [_ | H]; [reflexivity |].
  exfalso. now apply H.
Qed.

(** C2.  When [accel_des] is not the zero vector and the thrust policy
    returns a non-zero [u], lines 76 and 82-86 compute
    z_b = accel_des / |accel_des|,
    zdot_des = (jerk_des - (jerk_des . z_b) z_b) / u and
    zddot_des = (snap_des - 2 (jerk_des . z_b) zdot_des
                 - (snap_des . z_b + u (zdot_des . zdot_des)) z_b) / u. *)
Theorem flatness_z_rates (uf : V3 -> Rot -> res R) (accel_des : V3) (r : Rot)
    (jerk_des snap_des : V3) (u : R) :
  accel_des <> vzero ->
  uf accel_des r = Ok u ->
  u <> 0 ->
  let z_b := over accel_des (norm accel_des) in
  let zdot_des := over (vsub jerk_des (vscale (dot jerk_des z_b) z_b)) u in
  let zddot_des :=
    over (vsub (vsub snap_des (vscale (2 * dot jerk_des z_b) zdot_des))
               (vscale (dot snap_des z_b + u * dot zdot_des zdot_des) z_b)) u in
  vdiv accel_des (norm accel_des) = Ok z_b /\
  (let? u := uf accel_des r in Ok (z_rates u z_b jerk_des snap_des))%res =
    Ok (dot jerk_des z_b, Finite zdot_des, Finite zddot_des).
Proof.
  intros Ha Hu Hu0 z_b zdot_des zddot_des. split.
  - apply vdiv_ok, norm_nonzero, Ha.
  - rewrite Hu. cbn [rbind]. f_equal. apply z_rates_ok, Hu0.
Qed.

Lemma flatness_z_rates_witness :
  let a := mkV3 0 0 2 in
  let z_b := over a (norm a) in
  let zdot_des := over (vsub e1 (vscale (dot e1 z_b) z_b)) (norm a) in
  vdiv a (norm a) = Ok z_b /\
  (let? u := thrust_norm_accel a identity in Ok (z_rates u z_b e1 e2))%res =
    Ok (dot e1 z_b, Finite zdot_des,
        Finite
          (over (vsub (vsub e2 (vscale (2 * dot e1 z_b) zdot_des))
                      (vscale (dot e2 z_b + norm a * dot zdot_des zdot_des) z_b))
                (norm a))).
Proof.
  intros a.
  assert (Ha : a <> vzero).
  { intros E. apply (f_equal vz) in E. simpl in E. lra. }
  exact (flatness_z_rates thrust_norm_accel a identity e1 e2
           (norm a) Ha eq_refl (norm_nonzero a Ha)).
Defined.

(** ** Geometry of the frame constructors *)

Lemma col0_column_stack (a b c : V3) : col0 (column_stack a b c) = a.
Proof. destruct a; reflexivity. Qed.

Lemma col1_column_stack (a b c : V3) : col1 (column_stack a b c) = b.
Proof. destruct b; reflexivity. Qed.

Lemma col2_column_stack (a b c : V3) : col2 (column_stack a b c) = c.
Proof. destruct c; reflexivity. Qed.

Lemma dot_comm (a b : V3) : dot a b = dot b a.
Proof. unfold dot; ring. Qed.

Lemma dot_cross_self_l (a b : V3) : dot a (cross a b) = 0.
Proof. unfold dot, cross; simpl; ring. Qed.

Lemma dot_cross_self_r (a b : V3) : dot b (cross a b) = 0.
Proof. unfold dot, cross; simpl; ring. Qed.

(** Lagrange's identity. *)
Lemma dot_cross_cross (a b : V3) :
  dot (cross a b) (cross a b) = dot a a * dot b b - dot a b * dot a b.
Proof. unfold dot, cross; simpl; ring. Qed.

Lemma triple_xz (x n : V3) :
  dot x (cross (cross n x) n) = dot n n * dot x x - dot x n * dot x n.
Proof. unfold dot, cross; simpl; ring. Qed.

Lemma triple_yz (y n : V3) :
  dot (cross y n) (cross y n) = dot y y * dot n n - dot y n * dot y n.
Proof. apply dot_cross_cross. Qed.

Lemma cross_over_r (a b : V3) (d : R) : cross a (over b d) = over (cross a b) d.
Proof. apply v3_ext; unfold cross, over, Rdiv; simpl; ring. Qed.

Lemma cross_over_l (a b : V3) (d : R) : cross (over a d) b = over (cross a b) d.
Proof. apply v3_ext; unfold cross, over, Rdiv; simpl; ring. Qed.

Lemma dot_over_l (a b : V3) (d : R) : dot (over a d) b = dot a b / d.
Proof. unfold dot, over, Rdiv; simpl; ring. Qed.

Lemma over_vzero (d : R) : over vzero d = vzero.
Proof. apply v3_ext; unfold over, vzero, Rdiv; simpl; ring. Qed.

Lemma over_nonzero (v : V3) (d : R) : d <> 0 -> v <> vzero -> over v d <> vzero.
Proof.
  intros Hd Hv E. apply Hv.
  assert (Hx : vx v / d = 0) by exact (f_equal vx E).
  assert (Hy : vy v / d = 0) by exact (f_equal vy E).
  assert (Hz : vz v / d = 0) by exact (f_equal vz E).
  apply v3_ext; simpl.
  - replace (vx v) with (vx v / d * d) by (field; assumption). rewrite Hx; ring.
  - replace (vy v) with (vy v / d * d) by (field; assumption). rewrite Hy; ring.
  - replace (vz v) with (vz v / d * d) by (field; assumption). rewrite Hz; ring.
Qed.

(** A unit [x] orthogonal to a unit [n], completed by [y = n x x]. *)
Lemma frame_from_xz (x n : V3) :
  dot x x = 1 -> dot n n = 1 -> dot x n = 0 ->
  is_frame (column_stack x (cross n x) n).
Proof.
  intros Hx Hn Hxn. unfold is_frame, det.
  rewrite col0_column_stack, col1_column_stack, col2_column_stack.
  assert (Hnx : dot n x = 0) by (rewrite dot_comm; exact Hxn).
  repeat split.
  - apply norm_of_dot_one, Hx.
  - apply norm_of_dot_one. rewrite dot_cross_cross, Hn, Hx, Hnx. ring.
  - apply norm_of_dot_one, Hn.
  - apply dot_cross_self_r.
  - exact Hxn.
  - rewrite dot_comm. apply dot_cross_self_l.
  - rewrite triple_xz, Hn, Hx, Hxn. ring.
Qed.

(** A unit [y] orthogonal to a unit [n], completed by [x = y x n]. *)
Lemma frame_from_yz (y n : V3) :
  dot y y = 1 -> dot n n = 1 -> dot y n = 0 ->
  is_frame (column_stack (cross y n) y n).
Proof.
  intros Hy Hn Hyn. unfold is_frame, det.
  rewrite col0_column_stack, col1_column_stack, col2_column_stack.
  repeat split.
  - apply norm_of_dot_one. rewrite triple_yz, Hy, Hn, Hyn. ring.
  - apply norm_of_dot_one, Hy.
  - apply norm_of_dot_one, Hn.
  - rewrite dot_comm. apply dot_cross_self_l.
  - rewrite dot_comm. apply dot_cross_self_r.
  - exact Hyn.
  - rewrite triple_yz, Hy, Hn, Hyn. ring.
Qed.

Lemma rot_from_z_yaw_zyx_ok (z : V3) (yaw : R) :
  z <> vzero ->
  cross (mkV3 (- sin yaw) (cos yaw) 0) z <> vzero ->
  let n := over z (norm z) in
  let w := cross (mkV3 (- sin yaw) (cos yaw) 0) n in
  rot_from_z_yaw_zyx z yaw =
    Ok (column_stack (over w (norm w)) (cross n (over w (norm w))) n).
Proof.
  intros Hz Hw n w. unfold rot_from_z_yaw_zyx.
  rewrite normalized_ok by assumption. cbn [rbind]. fold n. fold w.
  assert (Hw' : w <> vzero).
  { unfold w, n. rewrite cross_over_r. apply over_nonzero; [apply norm_nonzero |]; assumption. }
  rewrite normalized_ok by assumption. reflexivity.
Qed.

Lemma rot_from_z_yaw_zxy_ok (z : V3) (yaw : R) :
  z <> vzero ->
  cross z (mkV3 (cos yaw) (sin yaw) 0) <> vzero ->
  let n := over z (norm z) in
  let w := cross n (mkV3 (cos yaw) (sin yaw) 0) in
  rot_from_z_yaw_zxy z yaw =
    Ok (column_stack (cross (over w (norm w)) n) (over w (norm w)) n).
Proof.
  intros Hz Hw n w. unfold rot_from_z_yaw_zxy.
  rewrite normalized_ok by assumption. cbn [rbind]. fold n. fold w.
  assert (Hw' : w <> vzero).
  { unfold w, n. rewrite cross_over_l. apply over_nonzero; [apply norm_nonzero |]; assumption. }
  rewrite normalized_ok by assumption. reflexivity.
Qed.

Lemma rot_from_z_yaw_zyx_singular (z : V3) (yaw : R) :
  cross (mkV3 (- sin yaw) (cos yaw) 0) z = vzero ->
  rot_from_z_yaw_zyx z yaw = Fail DivByZero.
Proof.
  intros Hw. unfold rot_from_z_yaw_zyx, normalized at 1, vdiv.
  destruct (Req_dec_T (norm z) 0); [reflexivity |]. cbn [rbind].
  change (mkV3 (vx z / norm z) (vy z / norm z) (vz z / norm z))
    with (over z (norm z)).
  rewrite cross_over_r, Hw, over_vzero, normalized_vzero. reflexivity.
Qed.

Lemma rot_from_z_yaw_zxy_singular (z : V3) (yaw : R) :
  cross z (mkV3 (cos yaw) (sin yaw) 0) = vzero ->
  rot_from_z_yaw_zxy z yaw = Fail DivByZero.
Proof.
  intros Hw. unfold rot_from_z_yaw_zxy, normalized at 1, vdiv.
  destruct (Req_dec_T (norm z) 0); [reflexivity |]. cbn [rbind].
  change (mkV3 (vx z / norm z) (vy z / norm z) (vz z / norm z))
    with (over z (norm z)).
  rewrite cross_over_l, Hw, over_vzero, normalized_vzero. reflexivity.
Qed.

(** C3, as the code has it.  For a non-zero [z]: when [z] is not parallel
    to the yaw axis the constructor crosses it with, that is
    (-sin yaw, cos yaw, 0) x z <> 0 for [rot_from_z_yaw_zyx] and
    z x (cos yaw, sin yaw, 0) <> 0 for [rot_from_z_yaw_zxy], the
    constructor returns a rotation whose columns are unit vectors, mutually
    orthogonal, with determinant +1 and third column z / |z|; when the
    cross product is zero it divides by a zero norm and returns no frame. *)
Theorem frame_constructors (z : V3) (yaw : R) :
  z <> vzero ->
  (cross (mkV3 (- sin yaw) (cos yaw) 0) z <> vzero ->
   frame_along (rot_from_z_yaw_zyx z yaw) z) /\
  (cross z (mkV3 (cos yaw) (sin yaw) 0) <> vzero ->
   frame_along (rot_from_z_yaw_zxy z yaw) z) /\
  (cross (mkV3 (- sin yaw) (cos yaw) 0) z = vzero ->
   rot_from_z_yaw_zyx z yaw = Fail DivByZero) /\
  (cross z (mkV3 (cos yaw) (sin yaw) 0) = vzero ->
   rot_from_z_yaw_zxy z yaw = Fail DivByZero).
Proof.
  intros Hz.
  pose proof (norm_nonzero z Hz) as Hnz.
  pose proof (dot_unit z Hz) as Hn.
  split; [| split; [| split]].
  - intros Hw. eexists. split; [apply rot_from_z_yaw_zyx_ok; assumption |].
    set (n := over z (norm z)) in *.
    set (w := cross (mkV3 (- sin yaw) (cos yaw) 0) n).
    assert (Hw' : w <> vzero).
    { unfold w, n. rewrite cross_over_r. apply over_nonzero; assumption. }
    split; [| apply col2_column_stack].
    apply frame_from_xz.
    + apply dot_unit, Hw'.
    + exact Hn.
    + rewrite dot_over_l. unfold w. rewrite dot_comm, dot_cross_self_r.
      unfold Rdiv; ring.
  - intros Hw. eexists. split; [apply rot_from_z_yaw_zxy_ok; assumption |].
    set (n := over z (norm z)) in *.
    set (w := cross n (mkV3 (cos yaw) (sin yaw) 0)).
    assert (Hw' : w <> vzero).
    { unfold w, n. rewrite cross_over_l. apply over_nonzero; assumption. }
    split; [| apply col2_column_stack].
    apply frame_from_yz.
    + apply dot_unit, Hw'.
    + exact Hn.
    + rewrite dot_over_l. unfold w. rewrite dot_comm, dot_cross_self_l.
      unfold Rdiv; ring.
  - apply rot_from_z_yaw_zyx_singular.
  - apply rot_from_z_yaw_zxy_singular.
Qed.

Lemma e2_nonzero : e2 <> vzero.
Proof. intros E. apply (f_equal vy) in E. simpl in E. lra. Qed.

Lemma e3_nonzero : e3 <> vzero.
Proof. intros E. apply (f_equal vz) in E. simpl in E. lra. Qed.

Lemma yaw0_axis_zyx_e3 : cross (mkV3 (- sin 0) (cos 0) 0) e3 <> vzero.
Proof. intros E. apply (f_equal vx) in E. simpl in E. rewrite cos_0 in E. lra. Qed.

Lemma yaw0_axis_zxy_e3 : cross e3 (mkV3 (cos 0) (sin 0) 0) <> vzero.
Proof. intros E. apply (f_equal vy) in E. simpl in E. rewrite cos_0 in E. lra. Qed.

Lemma yaw0_axis_zyx_e2 : cross (mkV3 (- sin 0) (cos 0) 0) e2 = vzero.
Proof. apply v3_ext; simpl; rewrite ?sin_0, ?cos_0; ring. Qed.

Lemma yaw0_axis_zxy_e1 : cross e1 (mkV3 (cos 0) (sin 0) 0) = vzero.
Proof. apply v3_ext; simpl; rewrite ?sin_0, ?cos_0; ring. Qed.

Lemma frame_constructors_witness :
  frame_along (rot_from_z_yaw_zyx e3 0) e3 /\
  frame_along (rot_from_z_yaw_zxy e3 0) e3 /\
  rot_from_z_yaw_zyx e2 0 = Fail DivByZero.
Proof.
  split; [| split].
  - exact (proj1 (frame_constructors e3 0 e3_nonzero) yaw0_axis_zyx_e3).
  - exact (proj1 (proj2 (frame_constructors e3 0 e3_nonzero)) yaw0_axis_zxy_e3).
  - exact (proj1 (proj2 (proj2 (frame_constructors e2 0 e2_nonzero)))
             yaw0_axis_zyx_e2).
Defined.

(** C3 as stated fails: [e2] is not zero, yet at yaw 0 the ZYX constructor
    crosses it with (-sin 0, cos 0, 0) = [e2], divides by the zero norm of
    the product and returns no frame. *)
Lemma frame_constructors_counterexample :
  ~ (e2 <> vzero ->
     frame_along (rot_from_z_yaw_zyx e2 0) e2 /\
     frame_along (rot_from_z_yaw_zxy e2 0) e2).
Proof.
  intros H. destruct (H e2_nonzero) as [[m [E _]] _].
  rewrite (rot_from_z_yaw_zyx_singular e2 0 yaw0_axis_zyx_e2) in E.
  discriminate E.
Qed.

(** The ZXY constructor has its own singular direction: [e1] at yaw 0. *)
Lemma rot_from_z_yaw_zxy_e1 : rot_from_z_yaw_zxy e1 0 = Fail DivByZero.
Proof. apply rot_from_z_yaw_zxy_singular, yaw0_axis_zxy_e1. Qed.

(** ** Scaling the direction *)

Lemma dot_vscale (c : R) (a : V3) :
  dot (vscale c a) (vscale c a) = (c * c) * dot a a.
Proof. unfold dot, vscale; simpl; ring. Qed.

Lemma norm_vscale (c : R) (a : V3) : 0 <= c -> norm (vscale c a) = c * norm a.
Proof.
  intros Hc. unfold norm. rewrite dot_vscale.
  rewrite sqrt_mult_alt by nra. rewrite sqrt_square by assumption. reflexivity.
Qed.

Lemma normalized_vscale (c : R) (a : V3) :
  0 < c -> normalized (vscale c a) = normalized a.
Proof.
  intros Hc. unfold normalized. rewrite norm_vscale by lra.
  destruct (Req_dec_T (norm a) 0) as [E | E].
  - rewrite E. replace (c * 0) with 0 by ring. now rewrite !vdiv_zero.
  - rewrite !vdiv_ok by (try assumption; nra).
    f_equal. apply v3_ext; unfold over, vscale; simpl; field; split; lra.
Qed.

(** C9.  Scaling a non-zero [z] by a positive factor changes neither
    constructor's result. *)
Theorem frame_scale_invariant (z : V3) (yaw c : R) :
  z <> vzero -> 0 < c ->
  rot_from_z_yaw_zyx (vscale c z) yaw = rot_from_z_yaw_zyx z yaw /\
  rot_from_z_yaw_zxy (vscale c z) yaw = rot_from_z_yaw_zxy z yaw.
Proof.
  intros _ Hc. unfold rot_from_z_yaw_zyx, rot_from_z_yaw_zxy.
  rewrite !normalized_vscale by assumption. split; reflexivity.
Qed.

Lemma frame_scale_invariant_witness :
  rot_from_z_yaw_zyx (vscale 2 e3) 0 = rot_from_z_yaw_zyx e3 0 /\
  rot_from_z_yaw_zxy (vscale 2 e3) 0 = rot_from_z_yaw_zxy e3 0.
Proof. apply (frame_scale_invariant e3 0 2 e3_nonzero). lra. Defined.

(** ** The hover scenario *)

Lemma norm_axis_z (k : R) : 0 <= k -> norm (mkV3 0 0 k) = k.
Proof.
  intros Hk. unfold norm, dot; simpl.
  replace (0 * 0 + 0 * 0 + k * k) with (k * k) by ring.
  apply sqrt_square, Hk.
Qed.

Lemma norm_e1 : norm e1 = 1.
Proof. apply norm_of_dot_one. unfold dot, e1; simpl; ring. Qed.

Lemma norm_e3 : norm e3 = 1.
Proof. apply norm_of_dot_one. unfold dot, e3; simpl; ring. Qed.

Lemma rot_from_z_yaw_zyx_e3 : rot_from_z_yaw_zyx e3 0 = Ok identity.
Proof.
  unfold rot_from_z_yaw_zyx. rewrite (normalized_unit e3 norm_e3). cbn [rbind].
  assert (E : cross (mkV3 (- sin 0) (cos 0) 0) e3 = e1).
  { apply v3_ext; simpl; rewrite ?sin_0, ?cos_0; ring. }
  rewrite E, (normalized_unit e1 norm_e1). cbn [rbind].
  unfold from_matrix, identity, eye, column_stack. simpl.
  repeat f_equal; ring.
Qed.

Lemma apply_identity (v : V3) : apply identity v = v.
Proof. apply v3_ext; unfold apply, mat_vec, identity, eye, dot; simpl; ring. Qed.

Lemma hover_accel_des metric uf (I : Mat) (t : R) :
  accel_des_value (init (hover_model I) metric uf hover_ref) t hover_state
  = mkV3 0 0 9.81.
Proof.
  apply v3_ext; unfold accel_des_value; simpl; unfold dot; simpl; lra.
Qed.

Lemma z_rates_rest (u : R) (z_b : V3) :
  u <> 0 -> z_rates u z_b vzero vzero = (0, Finite vzero, Finite vzero).
Proof.
  intros Hu. rewrite z_rates_ok by assumption.
  assert (E0 : dot vzero z_b = 0) by (unfold dot; simpl; ring).
  assert (E1 : over (vsub vzero (vscale (dot vzero z_b) z_b)) u = vzero).
  { rewrite E0. apply v3_ext; unfold over; simpl; field; assumption. }
  rewrite E1, E0.
  assert (E2 : over (vsub (vsub vzero (vscale (2 * 0) vzero))
                          (vscale (0 + u * dot vzero vzero) z_b)) u = vzero).
  { apply v3_ext; unfold over, dot; simpl; field; assumption. }
  rewrite E2. reflexivity.
Qed.

Lemma attitude_loop_rest get_xdot_xddot metric (m : Model) (c : Controller) (u : R) :
  get_xdot_xddot 0 0 e1 e3 vzero vzero = (vzero, vzero) ->
  metric identity identity = vzero ->
  attitude_loop get_xdot_xddot (Krot c) (Kang c) metric m hover_state 0 0
    identity e1 e2 e3 u vzero vzero
  = (mass m * u, vzero).
Proof.
  intros Hget Hmetric. unfold attitude_loop.
  assert (E : cross e3 vzero = vzero) by (apply v3_ext; simpl; ring).
  rewrite E, Hget. cbn [rot hover_state ang]. rewrite Hmetric.
  f_equal. apply v3_ext;
    unfold torque_from_aa, apply, inv, transpose, mat_vec, dot; simpl; ring.
Qed.

Lemma flat_tail_hover get_xdot_xddot metric (I : Mat) (t k : R) :
  get_xdot_xddot 0 0 e1 e3 vzero vzero = (vzero, vzero) ->
  metric identity identity = vzero ->
  k <> 0 ->
  flat_tail get_xdot_xddot
    (init (hover_model I) metric thrust_project_z hover_ref) t hover_state
    identity e1 e2 e3 (mkV3 0 0 k) vzero vzero
  = Ok (k, Finite vzero).
Proof.
  intros Hget Hmetric Hk.
  unfold flat_tail. cbn [u_f init rot hover_state].
  rewrite thrust_project_z_value, apply_identity.
  assert (Eu : dot (mkV3 0 0 k) e3 = k) by (unfold dot; simpl; ring).
  rewrite Eu. cbn [rbind].
  rewrite z_rates_rest by assumption. cbn [attitude_floats].
  cbn [ref init ref_yawvel ref_yawacc hover_ref].
  set (c := init (hover_model I) metric thrust_project_z hover_ref).
  change (rot_metric c) with metric. change (model c) with (hover_model I).
  rewrite (attitude_loop_rest get_xdot_xddot metric (hover_model I) c k Hget
             Hmetric).
  cbn [mass hover_model]. do 2 f_equal. ring.
Qed.

Lemma hover_value get_xdot_xddot metric (I : Mat) (t : R) :
  get_xdot_xddot 0 0 e1 e3 vzero vzero = (vzero, vzero) ->
  metric identity identity = vzero ->
  response_value get_xdot_xddot
    (init (hover_model I) metric thrust_project_z hover_ref) t hover_state
  = Ok (out 9.81 vzero).
Proof.
  intros Hget Hmetric.
  unfold response_value. rewrite hover_accel_des.
  rewrite norm_axis_z by lra. rewrite vdiv_ok by lra.
  assert (E : over (mkV3 0 0 9.81) 9.81 = e3).
  { apply v3_ext; unfold over; simpl; lra. }
  rewrite E. cbn [rbind]. cbn [ref init ref_yaw ref_jerk ref_snap hover_ref].
  rewrite rot_from_z_yaw_zyx_e3. cbn [rbind].
  rewrite !apply_identity.
  rewrite flat_tail_hover by (try assumption; lra).
  reflexivity.
Qed.

(** C1.  In the hover scenario (state at the origin, at rest, identity
    attitude; reference constantly zero; g = 9.81, mass = 1; thrust policy
    [thrust_project_z]; a rotation metric that is zero on aligned
    rotations) [response] returns thrust 9.81 and torque (0,0,0), for any
    inertia and any time.  [get_xdot_xddot] is assumed to return zero rates
    for a frame at rest (zero yaw rate and acceleration, zero rates of the
    thrust direction). *)
Theorem hover_response get_xdot_xddot (metric : Rot -> Rot -> V3) (I : Mat) (t : R) :
  get_xdot_xddot 0 0 e1 e3 vzero vzero = (vzero, vzero) ->
  (forall r, metric r r = vzero) ->
  fst (response get_xdot_xddot t hover_state
         (init (hover_model I) metric thrust_project_z hover_ref))
  = Ok (out 9.81 vzero).
Proof.
  intros Hget Hmetric. rewrite response_run. cbn [fst].
  apply hover_value; [exact Hget | apply Hmetric].
Qed.

Lemma rigid_xdot_xddot_rest :
  rigid_xdot_xddot 0 0 e1 e3 vzero vzero = (vzero, vzero).
Proof.
  unfold rigid_xdot_xddot. f_equal; apply v3_ext; simpl; ring.
Qed.

Lemma axis_metric_aligned (r : Rot) : axis_metric r r = vzero.
Proof. apply v3_ext; unfold axis_metric; simpl; ring. Qed.

Lemma hover_response_witness :
  fst (response rigid_xdot_xddot 0 hover_state
         (init (hover_model eye) axis_metric thrust_project_z hover_ref))
  = Ok (out 9.81 vzero).
Proof.
  exact (hover_response rigid_xdot_xddot axis_metric eye 0
           rigid_xdot_xddot_rest axis_metric_aligned).
Defined.

(** ** The learning controller *)

Lemma vsub_vzero (a : V3) : vsub a vzero = a.
Proof. apply v3_ext; simpl; ring. Qed.

Lemma mat_vec_mzero (v : V3) : mat_vec mzero v = vzero.
Proof. apply v3_ext; unfold mat_vec, mzero, diag, dot; simpl; ring. Qed.

Lemma vadd_vzero : vadd vzero vzero = vzero.
Proof. apply v3_ext; simpl; ring. Qed.

Lemma apply_column_stack_e1 (a b c : V3) : apply (column_stack a b c) e1 = a.
Proof. apply v3_ext; unfold apply, mat_vec, column_stack, dot; simpl; ring. Qed.

Lemma apply_column_stack_e2 (a b c : V3) : apply (column_stack a b c) e2 = b.
Proof. apply v3_ext; unfold apply, mat_vec, column_stack, dot; simpl; ring. Qed.

Lemma norm_nonzero_vec (a : V3) : norm a <> 0 -> a <> vzero.
Proof. intros H E. apply H. rewrite E. apply norm_vzero. Qed.

(** With a learner that answers zero, the learning controller computes the
    pair the base controller packages. *)
Lemma learn_value_zero get_xdot_xddot (c : Controller) (L : Learner)
    (t : R) (state : State) :
  (forall t s u, testpoint L t s u = vzero) ->
  (forall t s u, dpos L t s u = mzero) ->
  (forall t s u, dvel L t s u = mzero) ->
  (let? p := learn_value get_xdot_xddot c L t state in
   Ok (out (fst p) (snd p)))%res
  = response_value get_xdot_xddot c t state.
Proof.
  intros Htp Hdp Hdv.
  unfold learn_value, response_value, corrected_accel.
  rewrite Htp, Hdp, Hdv, !mat_vec_mzero, vadd_vzero, !vsub_vzero.
  set (a := accel_des_value c t state).
  destruct (Req_dec_T (norm a) 0) as [E | E].
  - rewrite E, vdiv_zero. reflexivity.
  - rewrite vdiv_ok by assumption. cbn [rbind].
    pose proof (norm_unit a (norm_nonzero_vec a E)) as Hunit.
    set (z_b := over a (norm a)) in *.
    unfold rot_from_z_yaw_zyx. rewrite (normalized_unit z_b Hunit). cbn [rbind].
    unfold normalized.
    destruct (vdiv (cross (mkV3 (- sin (ref_yaw (ref c) t))
                                (cos (ref_yaw (ref c) t)) 0) z_b)
                   (norm (cross (mkV3 (- sin (ref_yaw (ref c) t))
                                      (cos (ref_yaw (ref c) t)) 0) z_b)))
      as [x_b |]; cbn [rbind]; [| reflexivity].
    unfold from_matrix.
    rewrite apply_column_stack_e1, apply_column_stack_e2. reflexivity.
Qed.

(** C4.  With the same controller fields, time and state, a learner whose
    [testpoint], [dpos] and [dvel] return zero makes
    [CascadedControllerLearnAccel.response] return what
    [CascadedController.response] returns. *)
Theorem learn_zero_equiv get_xdot_xddot (t : R) (state : State) (w : World) :
  (forall t s u, testpoint (accel_learner w) t s u = vzero) ->
  (forall t s u, dpos (accel_learner w) t s u = mzero) ->
  (forall t s u, dvel (accel_learner w) t s u = mzero) ->
  fst (response_learn get_xdot_xddot t state w)
  = fst (response get_xdot_xddot t state (self_ctrl w)).
Proof.
  intros Htp Hdp Hdv.
  rewrite response_learn_run, response_run. cbn [fst].
  rewrite <- (learn_value_zero get_xdot_xddot (self_ctrl w) (accel_learner w)
                t state Htp Hdp Hdv).
  destruct (learn_value get_xdot_xddot (self_ctrl w) (accel_learner w) t state);
    reflexivity.
Qed.

Lemma learn_zero_equiv_witness :
  let c := init (hover_model eye) axis_metric thrust_project_z hover_ref in
  fst (response_learn rigid_xdot_xddot 0 hover_state (empty_world c zero_learner))
  = fst (response rigid_xdot_xddot 0 hover_state c).
Proof.
  intros c.
  exact (learn_zero_equiv rigid_xdot_xddot 0 hover_state
           (empty_world c zero_learner)
           (fun _ _ _ => eq_refl) (fun _ _ _ => eq_refl) (fun _ _ _ => eq_refl)).
Defined.

Lemma calls_after_queries (t : R) (state : State) (w : World) :
  calls (world_after_queries t state w) =
    calls w ++
    [CallTestpoint t state (accel_des_value (self_ctrl w) t state);
     CallDpos t state (corrected_accel (self_ctrl w) (accel_learner w) t state);
     CallDvel t state (corrected_accel (self_ctrl w) (accel_learner w) t state)].
Proof. unfold world_after_queries. cbn [calls]. rewrite <- !app_assoc. reflexivity. Qed.

(** The log of every call, whether or not it returns: the first query is
    made with the array as line 151 computed it, the other two with the
    array as line 158 left it. *)
Lemma learner_queries_log get_xdot_xddot (t : R) (state : State) (w : World) :
  exists rest,
    calls (snd (response_learn get_xdot_xddot t state w)) =
      calls w ++
      [CallTestpoint t state (accel_des_value (self_ctrl w) t state);
       CallDpos t state (corrected_accel (self_ctrl w) (accel_learner w) t state);
       CallDvel t state (corrected_accel (self_ctrl w) (accel_learner w) t state)]
      ++ rest.
Proof.
  rewrite response_learn_run.
  destruct (learn_value get_xdot_xddot (self_ctrl w) (accel_learner w) t state)
    as [p | f]; cbn [snd].
  - exists [CallAddDatapoint t state p].
    unfold after_add_datapoint. cbn [calls]. rewrite calls_after_queries.
    rewrite <- !app_assoc. reflexivity.
  - exists []. rewrite calls_after_queries, app_nil_r. reflexivity.
Qed.

(** C7.  A call of the learning controller's [response] that returns a
    command has made exactly one [add_datapoint] call, with the [t] and
    [state] it was given and the (thrust, torque) pair it returns; the
    controller's fields and its learner are as before, and the command does
    not depend on the log of calls.  The calls that return include those
    on which the thrust policy gives [u] = 0: they return the thrust
    mass * 0 and a nan torque, and record that pair.  The calls that do not
    return are those that raise. *)
Theorem add_datapoint_once get_xdot_xddot (t : R) (state : State)
    (w w' : World) (cmd : Command) :
  response_learn get_xdot_xddot t state w = (Ok cmd, w') ->
  (exists new,
     calls w' = calls w ++ new /\
     filter is_add_datapoint new =
       [CallAddDatapoint t state (thrust cmd, torque cmd)]) /\
  self_ctrl w' = self_ctrl w /\
  accel_learner w' = accel_learner w /\
  forall log,
    fst (response_learn get_xdot_xddot t state
           (mkWorld (self_ctrl w) (accel_learner w) (arrays w) (next_ref w) log))
    = Ok cmd.
Proof.
  intros H. rewrite response_learn_run in H.
  destruct (learn_value get_xdot_xddot (self_ctrl w) (accel_learner w) t state)
    as [p | f] eqn:E; [| discriminate H].
  injection H as Hcmd Hw. subst cmd w'. cbn [thrust torque].
  split; [| split; [| split]].
  - eexists. split.
    + unfold after_add_datapoint. cbn [calls]. rewrite calls_after_queries.
      rewrite <- app_assoc. reflexivity.
    + destruct p; reflexivity.
  - reflexivity.
  - reflexivity.
  - intros log. rewrite response_learn_run. cbn [self_ctrl accel_learner].
    rewrite E. reflexivity.
Qed.

Lemma hover_corrected_accel metric uf (I : Mat) (t b : R) :
  corrected_accel (init (hover_model I) metric uf hover_ref)
    (bias_learner (mkV3 0 0 b)) t hover_state
  = mkV3 0 0 (9.81 - b).
Proof.
  unfold corrected_accel. rewrite hover_accel_des.
  apply v3_ext; simpl; ring.
Qed.

Lemma learn_value_hover_bias get_xdot_xddot metric (I : Mat) (t b : R) :
  get_xdot_xddot 0 0 e1 e3 vzero vzero = (vzero, vzero) ->
  metric identity identity = vzero ->
  b < 9.81 ->
  learn_value get_xdot_xddot
    (init (hover_model I) metric thrust_project_z hover_ref)
    (bias_learner (mkV3 0 0 b)) t hover_state
  = Ok (9.81 - b, Finite vzero).
Proof.
  intros Hget Hmetric Hb.
  unfold learn_value. rewrite hover_corrected_accel.
  cbn [dpos dvel bias_learner ref init ref_acc ref_vel ref_jerk ref_snap
       ref_yaw hover_ref].
  rewrite !mat_vec_mzero, vadd_vzero, !vsub_vzero.
  rewrite norm_axis_z by lra. rewrite vdiv_ok by lra.
  assert (E : over (mkV3 0 0 (9.81 - b)) (9.81 - b) = e3).
  { apply v3_ext; unfold over; simpl; field; lra. }
  rewrite E. cbn [rbind].
  assert (Ex : cross (mkV3 (- sin 0) (cos 0) 0) e3 = e1).
  { apply v3_ext; simpl; rewrite ?sin_0, ?cos_0; ring. }
  rewrite Ex, norm_e1, vdiv_ok by lra. rewrite over_one. cbn [rbind].
  assert (Ey : cross e3 e1 = e2) by (apply v3_ext; simpl; ring).
  rewrite Ey.
  change (from_matrix (column_stack e1 e2 e3)) with identity.
  apply flat_tail_hover; [assumption | assumption | lra].
Qed.

Lemma tilted_accel_des metric uf (I : Mat) (t : R) :
  accel_des_value (init (hover_model I) metric uf hover_ref) t tilted_state
  = mkV3 0 0 9.81.
Proof.
  apply v3_ext; unfold accel_des_value; simpl; unfold dot; simpl; lra.
Qed.

(** Hover with the vehicle on its side: the projected thrust [u] is zero,
    and the call returns the thrust mass * 0 with a torque that is not a
    real vector. *)
Lemma learn_value_tilted get_xdot_xddot metric (I : Mat) (t : R) :
  learn_value get_xdot_xddot
    (init (hover_model I) metric thrust_project_z hover_ref)
    zero_learner t tilted_state
  = Ok (1 * 0, NonFinite).
Proof.
  unfold learn_value, corrected_accel. rewrite tilted_accel_des.
  cbn [testpoint dpos dvel zero_learner ref init ref_acc ref_vel ref_jerk
       ref_snap ref_yaw hover_ref].
  rewrite !mat_vec_mzero, vadd_vzero, !vsub_vzero.
  rewrite norm_axis_z by lra. rewrite vdiv_ok by lra.
  assert (E : over (mkV3 0 0 9.81) 9.81 = e3).
  { apply v3_ext; unfold over; simpl; lra. }
  rewrite E. cbn [rbind].
  assert (Ex : cross (mkV3 (- sin 0) (cos 0) 0) e3 = e1).
  { apply v3_ext; simpl; rewrite ?sin_0, ?cos_0; ring. }
  rewrite Ex, norm_e1, vdiv_ok by lra. rewrite over_one. cbn [rbind].
  unfold flat_tail. cbn [u_f init rot tilted_state].
  rewrite thrust_project_z_value.
  assert (Eu : dot (mkV3 0 0 9.81) (apply (column_stack (mkV3 0 0 (-1)) e2 e1) e3) = 0).
  { unfold dot, apply, mat_vec, column_stack, dot; simpl; ring. }
  rewrite Eu. cbn [rbind]. rewrite z_rates_zero. reflexivity.
Qed.

Lemma add_datapoint_once_witness :
  let c := init (hover_model eye) axis_metric thrust_project_z hover_ref in
  (* a call with u = 9.81 - 1 *)
  (let w := empty_world c (bias_learner (mkV3 0 0 1)) in
   let cmd := out (9.81 - 1) vzero in
   exists new,
     calls (after_add_datapoint (world_after_queries 0 hover_state w)
              0 hover_state (9.81 - 1, Finite vzero)) = calls w ++ new /\
     filter is_add_datapoint new =
       [CallAddDatapoint 0 hover_state (thrust cmd, torque cmd)]) /\
  (* a call with u = 0, which returns the thrust 0 and a nan torque *)
  (let w := empty_world c zero_learner in
   let cmd := out (1 * 0) NonFinite in
   fst (response_learn rigid_xdot_xddot 0 tilted_state w) = Ok cmd /\
   exists new,
     calls (snd (response_learn rigid_xdot_xddot 0 tilted_state w))
       = calls w ++ new /\
     filter is_add_datapoint new =
       [CallAddDatapoint 0 tilted_state (thrust cmd, torque cmd)]).
Proof.
  intros c. split.
  - intros w cmd.
    assert (Hrun : response_learn rigid_xdot_xddot 0 hover_state w =
                   (Ok cmd,
                    after_add_datapoint (world_after_queries 0 hover_state w)
                      0 hover_state (9.81 - 1, Finite vzero))).
    { rewrite response_learn_run. unfold w, c.
      cbn [self_ctrl accel_learner empty_world].
      rewrite (learn_value_hover_bias rigid_xdot_xddot axis_metric eye 0 1
                 rigid_xdot_xddot_rest (axis_metric_aligned identity)) by lra.
      reflexivity. }
    exact (proj1 (add_datapoint_once rigid_xdot_xddot 0 hover_state w _ cmd Hrun)).
  - intros w cmd.
    assert (Hrun : response_learn rigid_xdot_xddot 0 tilted_state w =
                   (Ok cmd,
                    after_add_datapoint (world_after_queries 0 tilted_state w)
                      0 tilted_state (1 * 0, NonFinite))).
    { rewrite response_learn_run. unfold w, c.
      cbn [self_ctrl accel_learner empty_world].
      rewrite learn_value_tilted. reflexivity. }
    rewrite Hrun. cbn [fst snd]. split; [reflexivity |].
    exact (proj1 (add_datapoint_once rigid_xdot_xddot 0 tilted_state w _ cmd Hrun)).
Defined.

(** With [thrust_maintain_z] as the policy the call does not return: it
    stops at line 191 with the [NameError] of line 20, after the three
    queries and before [add_datapoint]. *)
Lemma response_learn_maintain_z get_xdot_xddot (t : R) (state : State) (w : World) :
  u_f (self_ctrl w) = thrust_maintain_z ->
  corrected_accel (self_ctrl w) (accel_learner w) t state = mkV3 0 0 1 ->
  ref_yaw (ref (self_ctrl w)) t = 0 ->
  response_learn get_xdot_xddot t state w =
    (Fail (NameError "z_w"), world_after_queries t state w).
Proof.
  intros Hu Ha Hyaw. rewrite response_learn_run.
  unfold learn_value. rewrite Ha, Hyaw.
  rewrite norm_axis_z by lra. rewrite vdiv_ok by lra.
  assert (E : over (mkV3 0 0 1) 1 = e3) by apply over_one.
  rewrite E. cbn [rbind].
  assert (Ex : cross (mkV3 (- sin 0) (cos 0) 0) e3 = e1).
  { apply v3_ext; simpl; rewrite ?sin_0, ?cos_0; ring. }
  rewrite Ex, norm_e1, vdiv_ok by lra. cbn [rbind].
  unfold flat_tail. rewrite Hu. reflexivity.
Qed.

(** C10.  The claim is that all three queries are made with the desired
    specific force as the position loop computed it.  At hover, with a
    learner that reports the acceleration error (0,0,1): [testpoint] is
    called with (0,0,9.81), but [control_for_learner] is the array
    [accel_des] itself, line 158 subtracts the error from it in place, and
    [dpos] and [dvel] are called with the corrected (0,0,8.81). *)
Theorem learner_control_aliased :
  let c := init (hover_model eye) axis_metric thrust_project_z hover_ref in
  let w := empty_world c (bias_learner (mkV3 0 0 1)) in
  fst (response_learn rigid_xdot_xddot 0 hover_state w)
    = Ok (out (9.81 - 1) vzero) /\
  calls (snd (response_learn rigid_xdot_xddot 0 hover_state w)) =
    [CallTestpoint 0 hover_state (mkV3 0 0 9.81);
     CallDpos 0 hover_state (mkV3 0 0 (9.81 - 1));
     CallDvel 0 hover_state (mkV3 0 0 (9.81 - 1));
     CallAddDatapoint 0 hover_state (9.81 - 1, Finite vzero)] /\
  mkV3 0 0 (9.81 - 1) <> mkV3 0 0 9.81.
Proof.
  intros c w. rewrite response_learn_run.
  unfold w, c. cbn [self_ctrl accel_learner empty_world].
  rewrite (learn_value_hover_bias rigid_xdot_xddot axis_metric eye 0 1
             rigid_xdot_xddot_rest (axis_metric_aligned identity)) by lra.
  cbn [fst snd]. split; [reflexivity |]. split.
  - unfold after_add_datapoint. cbn [calls]. rewrite calls_after_queries.
    cbn [self_ctrl accel_learner calls empty_world].
    rewrite hover_accel_des, hover_corrected_accel. reflexivity.
  - intros E. apply (f_equal vz) in E. simpl in E. lra.
Qed.

(** * Further properties of the code *)

(** ** Thrust policies against the frame constructors *)

Lemma apply_e3 (r : Rot) : apply r e3 = col2 r.
Proof. apply v3_ext; unfold apply, mat_vec, col2, dot; simpl; ring. Qed.

Lemma dot_over_r (a b : V3) (d : R) : dot a (over b d) = dot a b / d.
Proof. unfold dot, over, Rdiv; simpl; ring. Qed.

Lemma dot_self_over_norm (a : V3) : a <> vzero -> dot a (over a (norm a)) = norm a.
Proof.
  intros H. rewrite dot_over_r, <- norm_sqr. field. apply norm_nonzero, H.
Qed.

Lemma normalized_inv (a b : V3) :
  normalized a = Ok b -> a <> vzero /\ b = over a (norm a).
Proof.
  unfold normalized, vdiv. destruct (Req_dec_T (norm a) 0) as [E | E]; [discriminate |].
  intros H. injection H as Hb. split; [apply norm_nonzero_vec, E | now subst b].
Qed.

Lemma rot_from_z_yaw_zyx_inv (z : V3) (yaw : R) (r : Rot) :
  rot_from_z_yaw_zyx z yaw = Ok r ->
  z <> vzero /\ cross (mkV3 (- sin yaw) (cos yaw) 0) z <> vzero /\
  r = column_stack
        (over (cross (mkV3 (- sin yaw) (cos yaw) 0) (over z (norm z)))
              (norm (cross (mkV3 (- sin yaw) (cos yaw) 0) (over z (norm z)))))
        (cross (over z (norm z))
           (over (cross (mkV3 (- sin yaw) (cos yaw) 0) (over z (norm z)))
                 (norm (cross (mkV3 (- sin yaw) (cos yaw) 0) (over z (norm z))))))
        (over z (norm z)).
Proof.
  intros H.
  destruct (normalized z) as [n | f] eqn:En.
  2: { unfold rot_from_z_yaw_zyx in H. rewrite En in H. discriminate H. }
  destruct (normalized_inv z n En) as [Hz Hn].
  assert (Hw : cross (mkV3 (- sin yaw) (cos yaw) 0) z <> vzero).
  { intros E. rewrite (rot_from_z_yaw_zyx_singular z yaw E) in H. discriminate H. }
  split; [exact Hz |]. split; [exact Hw |].
  rewrite (rot_from_z_yaw_zyx_ok z yaw Hz Hw) in H. injection H as H. now subst r.
Qed.

Lemma rot_from_z_yaw_zxy_inv (z : V3) (yaw : R) (r : Rot) :
  rot_from_z_yaw_zxy z yaw = Ok r ->
  z <> vzero /\ cross z (mkV3 (cos yaw) (sin yaw) 0) <> vzero /\
  r = column_stack
        (cross (over (cross (over z (norm z)) (mkV3 (cos yaw) (sin yaw) 0))
                     (norm (cross (over z (norm z)) (mkV3 (cos yaw) (sin yaw) 0))))
               (over z (norm z)))
        (over (cross (over z (norm z)) (mkV3 (cos yaw) (sin yaw) 0))
              (norm (cross (over z (norm z)) (mkV3 (cos yaw) (sin yaw) 0))))
        (over z (norm z)).
Proof.
  intros H.
  destruct (normalized z) as [n | f] eqn:En.
  2: { unfold rot_from_z_yaw_zxy in H. rewrite En in H. discriminate H. }
  destruct (normalized_inv z n En) as [Hz Hn].
  assert (Hw : cross z (mkV3 (cos yaw) (sin yaw) 0) <> vzero).
  { intros E. rewrite (rot_from_z_yaw_zxy_singular z yaw E) in H. discriminate H. }
  split; [exact Hz |]. split; [exact Hw |].
  rewrite (rot_from_z_yaw_zxy_ok z yaw Hz Hw) in H. injection H as H. now subst r.
Qed.

(** X1.  In the attitude either constructor builds for [accel_des], the
    projection policy and the norm policy give the same thrust,
    |accel_des|. *)
Theorem thrust_policies_agree_aligned (accel_des : V3) (yaw : R) (r : Rot) :
  rot_from_z_yaw_zyx accel_des yaw = Ok r \/ rot_from_z_yaw_zxy accel_des yaw = Ok r ->
  thrust_project_z accel_des r = Ok (norm accel_des) /\
  thrust_norm_accel accel_des r = Ok (norm accel_des).
Proof.
  intros H. split; [| reflexivity].
  rewrite thrust_project_z_value, apply_e3.
  destruct H as [H | H].
  - destruct (rot_from_z_yaw_zyx_inv _ _ _ H) as (Hz & _ & Hr).
    rewrite Hr, col2_column_stack, dot_self_over_norm by assumption. reflexivity.
  - destruct (rot_from_z_yaw_zxy_inv _ _ _ H) as (Hz & _ & Hr).
    rewrite Hr, col2_column_stack, dot_self_over_norm by assumption. reflexivity.
Qed.

Lemma thrust_policies_agree_aligned_witness :
  thrust_project_z e3 identity = Ok (norm e3) /\
  thrust_norm_accel e3 identity = Ok (norm e3).
Proof.
  exact (thrust_policies_agree_aligned e3 0 identity
           (or_introl rot_from_z_yaw_zyx_e3)).
Defined.

Lemma cauchy_schwarz (a b : V3) : dot a b * dot a b <= dot a a * dot b b.
Proof.
  pose proof (dot_self_nonneg (cross a b)) as H.
  rewrite dot_cross_cross in H. lra.
Qed.

Lemma abs_dot_le_norm (a b : V3) : dot b b = 1 -> Rabs (dot a b) <= norm a.
Proof.
  intros Hb. pose proof (cauchy_schwarz a b) as H. rewrite Hb in H.
  unfold norm. rewrite <- sqrt_Rsqr_abs. apply sqrt_le_1_alt.
  unfold Rsqr. lra.
Qed.

(** X2.  Whatever the current attitude, as long as its z axis is a unit
    vector, the projection policy never asks for more thrust than the norm
    policy: |thrust_project_z| <= |accel_des|. *)
Theorem thrust_project_z_bounded (accel_des : V3) (r : Rot) :
  norm (col2 r) = 1 ->
  exists u, thrust_project_z accel_des r = Ok u /\ Rabs u <= norm accel_des.
Proof.
  intros H. eexists. split; [apply thrust_project_z_value |].
  rewrite apply_e3. apply abs_dot_le_norm.
  rewrite <- norm_sqr, H. ring.
Qed.

Lemma thrust_project_z_bounded_witness :
  exists u, thrust_project_z (mkV3 1 2 3) identity = Ok u
            /\ Rabs u <= norm (mkV3 1 2 3).
Proof.
  apply (thrust_project_z_bounded (mkV3 1 2 3) identity).
  unfold identity, eye, col2; simpl. exact norm_e3.
Defined.

Lemma norm_vscale_abs (c : R) (a : V3) : norm (vscale c a) = Rabs c * norm a.
Proof.
  unfold norm. rewrite dot_vscale.
  rewrite sqrt_mult_alt by nra.
  replace (c * c) with (Rsqr c) by reflexivity. now rewrite sqrt_Rsqr_abs.
Qed.

(** X3.  Scaling [accel_des] by [c] scales the projected thrust by [c] and
    the norm thrust by |c|: reversing the desired force reverses the first
    and leaves the second as it is. *)
Theorem thrust_policies_scale (c : R) (accel_des : V3) (r : Rot) :
  thrust_project_z (vscale c accel_des) r = Ok (c * dot accel_des (apply r e3)) /\
  thrust_norm_accel (vscale c accel_des) r = Ok (Rabs c * norm accel_des).
Proof.
  split.
  - rewrite thrust_project_z_value. f_equal. unfold dot, vscale; simpl; ring.
  - unfold thrust_norm_accel. now rewrite norm_vscale_abs.
Qed.

(** ** More on the frame constructors *)

Lemma cross_vzero_r (a : V3) : cross a vzero = vzero.
Proof. apply v3_ext; simpl; ring. Qed.

Lemma cross_vzero_l (a : V3) : cross vzero a = vzero.
Proof. apply v3_ext; simpl; ring. Qed.

(** X4.  Each constructor returns a rotation exactly when its cross
    product is not the zero vector; the zero [z] and a [z] along the yaw
    axis are the inputs, and the only ones, on which it divides by zero. *)
Theorem frame_constructors_defined (z : V3) (yaw : R) :
  ((exists r, rot_from_z_yaw_zyx z yaw = Ok r) <->
   cross (mkV3 (- sin yaw) (cos yaw) 0) z <> vzero) /\
  ((exists r, rot_from_z_yaw_zxy z yaw = Ok r) <->
   cross z (mkV3 (cos yaw) (sin yaw) 0) <> vzero) /\
  rot_from_z_yaw_zyx vzero yaw = Fail DivByZero /\
  rot_from_z_yaw_zxy vzero yaw = Fail DivByZero.
Proof.
  split; [| split; [| split]].
  - split.
    + intros [r H]. apply (rot_from_z_yaw_zyx_inv _ _ _ H).
    + intros H. eexists. apply rot_from_z_yaw_zyx_ok; [| exact H].
      intros E. apply H. rewrite E. apply cross_vzero_r.
  - split.
    + intros [r H]. apply (rot_from_z_yaw_zxy_inv _ _ _ H).
    + intros H. eexists. apply rot_from_z_yaw_zxy_ok; [| exact H].
      intros E. apply H. rewrite E. apply cross_vzero_l.
  - apply rot_from_z_yaw_zyx_singular, cross_vzero_r.
  - apply rot_from_z_yaw_zxy_singular, cross_vzero_l.
Qed.

Lemma sin2_cos2_mul (x : R) : sin x * sin x + cos x * cos x = 1.
Proof. exact (sin2_cos2 x). Qed.

Lemma heading_unit (yaw : R) :
  dot (mkV3 (cos yaw) (sin yaw) 0) (mkV3 (cos yaw) (sin yaw) 0) = 1.
Proof. unfold dot; simpl. pose proof (sin2_cos2_mul yaw). lra. Qed.

Lemma side_unit (yaw : R) :
  dot (mkV3 (- sin yaw) (cos yaw) 0) (mkV3 (- sin yaw) (cos yaw) 0) = 1.
Proof. unfold dot; simpl. pose proof (sin2_cos2_mul yaw). lra. Qed.

Lemma heading_nonzero (yaw : R) : mkV3 (cos yaw) (sin yaw) 0 <> vzero.
Proof.
  intros E. pose proof (heading_unit yaw) as H. rewrite E in H.
  unfold dot in H; simpl in H. lra.
Qed.

Lemma side_nonzero (yaw : R) : mkV3 (- sin yaw) (cos yaw) 0 <> vzero.
Proof.
  intros E. pose proof (side_unit yaw) as H. rewrite E in H.
  unfold dot in H; simpl in H. lra.
Qed.

Lemma normalized_axis_z (k : R) : 0 < k -> normalized (mkV3 0 0 k) = Ok e3.
Proof.
  intros Hk. unfold normalized. rewrite norm_axis_z by lra.
  rewrite vdiv_ok by lra. f_equal. apply v3_ext; unfold over; simpl; field; lra.
Qed.

Lemma rot_from_z_yaw_zyx_vertical (k yaw : R) :
  0 < k -> rot_from_z_yaw_zyx (mkV3 0 0 k) yaw = Ok (yaw_rot yaw).
Proof.
  intros Hk. unfold rot_from_z_yaw_zyx. rewrite normalized_axis_z by assumption.
  cbn [rbind].
  assert (E : cross (mkV3 (- sin yaw) (cos yaw) 0) e3 = mkV3 (cos yaw) (sin yaw) 0).
  { apply v3_ext; simpl; ring. }
  rewrite E, (normalized_unit _ (norm_of_dot_one _ (heading_unit yaw))).
  cbn [rbind].
  assert (Ey : cross e3 (mkV3 (cos yaw) (sin yaw) 0) = mkV3 (- sin yaw) (cos yaw) 0).
  { apply v3_ext; simpl; ring. }
  rewrite Ey. reflexivity.
Qed.

Lemma rot_from_z_yaw_zxy_vertical (k yaw : R) :
  0 < k -> rot_from_z_yaw_zxy (mkV3 0 0 k) yaw = Ok (yaw_rot yaw).
Proof.
  intros Hk. unfold rot_from_z_yaw_zxy. rewrite normalized_axis_z by assumption.
  cbn [rbind].
  assert (E : cross e3 (mkV3 (cos yaw) (sin yaw) 0) = mkV3 (- sin yaw) (cos yaw) 0).
  { apply v3_ext; simpl; ring. }
  rewrite E, (normalized_unit _ (norm_of_dot_one _ (side_unit yaw))).
  cbn [rbind].
  assert (Ex : cross (mkV3 (- sin yaw) (cos yaw) 0) e3 = mkV3 (cos yaw) (sin yaw) 0).
  { apply v3_ext; simpl; ring. }
  rewrite Ex. reflexivity.
Qed.

(** X5.  For a [z] that points straight up, (0,0,k) with k > 0, the two
    constructors return the same rotation: the turn by [yaw] about the
    world z axis, with columns (cos yaw, sin yaw, 0), (-sin yaw, cos yaw, 0)
    and (0,0,1). *)
Theorem frame_constructors_vertical (k yaw : R) :
  0 < k ->
  rot_from_z_yaw_zyx (mkV3 0 0 k) yaw = Ok (yaw_rot yaw) /\
  rot_from_z_yaw_zxy (mkV3 0 0 k) yaw = Ok (yaw_rot yaw).
Proof.
  intros Hk. split.
  - apply rot_from_z_yaw_zyx_vertical, Hk.
  - apply rot_from_z_yaw_zxy_vertical, Hk.
Qed.

Lemma frame_constructors_vertical_witness :
  rot_from_z_yaw_zyx (mkV3 0 0 2) 1 = Ok (yaw_rot 1) /\
  rot_from_z_yaw_zxy (mkV3 0 0 2) 1 = Ok (yaw_rot 1).
Proof. apply (frame_constructors_vertical 2 1). lra. Defined.

Lemma norm_pos (a : V3) : a <> vzero -> 0 < norm a.
Proof.
  intros H. pose proof (norm_nonneg a). pose proof (norm_nonzero a H). lra.
Qed.

Lemma zyx_cross_heading (yaw : R) (n : V3) :
  dot (cross (mkV3 (- sin yaw) (cos yaw) 0) n) (mkV3 (cos yaw) (sin yaw) 0) = vz n.
Proof.
  unfold dot, cross; simpl.
  transitivity (vz n * (sin yaw * sin yaw + cos yaw * cos yaw)); [ring |].
  rewrite sin2_cos2_mul. ring.
Qed.

Lemma zxy_cross_side (yaw : R) (n : V3) :
  dot (cross n (mkV3 (cos yaw) (sin yaw) 0)) (mkV3 (- sin yaw) (cos yaw) 0) = vz n.
Proof.
  unfold dot, cross; simpl.
  transitivity (vz n * (sin yaw * sin yaw + cos yaw * cos yaw)); [ring |].
  rewrite sin2_cos2_mul. ring.
Qed.

Lemma upward_zyx_regular (z : V3) (yaw : R) :
  0 < vz z -> cross (mkV3 (- sin yaw) (cos yaw) 0) z <> vzero.
Proof.
  intros Hz E. pose proof (zyx_cross_heading yaw z) as H. rewrite E in H.
  unfold dot in H; simpl in H. lra.
Qed.

Lemma upward_zxy_regular (z : V3) (yaw : R) :
  0 < vz z -> cross z (mkV3 (cos yaw) (sin yaw) 0) <> vzero.
Proof.
  intros Hz E. pose proof (zxy_cross_side yaw z) as H. rewrite E in H.
  unfold dot in H; simpl in H. lra.
Qed.

Lemma upward_nonzero (z : V3) : 0 < vz z -> z <> vzero.
Proof. intros Hz E. rewrite E in Hz. simpl in Hz. lra. Qed.

(** X6.  For every [z] with a positive vertical component both
    constructors return a rotation, and its yaw is the one asked for: the
    x axis of the ZYX frame is orthogonal to (-sin yaw, cos yaw, 0) and
    points to the side of (cos yaw, sin yaw, 0); the y axis of the ZXY
    frame is orthogonal to (cos yaw, sin yaw, 0) and points to the side of
    (-sin yaw, cos yaw, 0). *)
Theorem frame_constructors_heading (z : V3) (yaw : R) :
  0 < vz z ->
  exists r1 r2,
    rot_from_z_yaw_zyx z yaw = Ok r1 /\
    rot_from_z_yaw_zxy z yaw = Ok r2 /\
    dot (col0 r1) (mkV3 (- sin yaw) (cos yaw) 0) = 0 /\
    0 < dot (col0 r1) (mkV3 (cos yaw) (sin yaw) 0) /\
    dot (col1 r2) (mkV3 (cos yaw) (sin yaw) 0) = 0 /\
    0 < dot (col1 r2) (mkV3 (- sin yaw) (cos yaw) 0).
Proof.
  intros Hz.
  pose proof (upward_nonzero z Hz) as Hnz.
  pose proof (norm_pos z Hnz) as Hn.
  pose proof (upward_zyx_regular z yaw Hz) as H1.
  pose proof (upward_zxy_regular z yaw Hz) as H2.
  do 2 eexists.
  split; [apply rot_from_z_yaw_zyx_ok; assumption |].
  split; [apply rot_from_z_yaw_zxy_ok; assumption |].
  rewrite col0_column_stack, col1_column_stack.
  set (n := over z (norm z)).
  assert (Hvz : 0 < vz n).
  { unfold n, over; simpl. apply Rdiv_lt_0_compat; assumption. }
  assert (Hw1 : 0 < norm (cross (mkV3 (- sin yaw) (cos yaw) 0) n)).
  { apply norm_pos, upward_zyx_regular, Hvz. }
  assert (Hw2 : 0 < norm (cross n (mkV3 (cos yaw) (sin yaw) 0))).
  { apply norm_pos, upward_zxy_regular, Hvz. }
  rewrite !dot_over_l, zyx_cross_heading, zxy_cross_side.
  repeat split.
  - rewrite dot_comm, dot_cross_self_l. unfold Rdiv; ring.
  - apply Rdiv_lt_0_compat; assumption.
  - rewrite dot_comm, dot_cross_self_r. unfold Rdiv; ring.
  - apply Rdiv_lt_0_compat; assumption.
Qed.

Lemma frame_constructors_heading_witness :
  exists r1 r2,
    rot_from_z_yaw_zyx (mkV3 1 2 3) 1 = Ok r1 /\
    rot_from_z_yaw_zxy (mkV3 1 2 3) 1 = Ok r2 /\
    dot (col0 r1) (mkV3 (- sin 1) (cos 1) 0) = 0 /\
    0 < dot (col0 r1) (mkV3 (cos 1) (sin 1) 0) /\
    dot (col1 r2) (mkV3 (cos 1) (sin 1) 0) = 0 /\
    0 < dot (col1 r2) (mkV3 (- sin 1) (cos 1) 0).
Proof. apply (frame_constructors_heading (mkV3 1 2 3) 1). simpl. lra. Defined.

(** ** More on the flatness inversion *)

Lemma dot_reject (j z : V3) :
  dot (vsub j (vscale (dot j z) z)) z = dot j z * (1 - dot z z).
Proof. unfold dot, vsub, vscale; simpl; ring. Qed.

Lemma dot_zddot_numerator (s zd z : V3) (udot uddot : R) :
  dot z (vsub (vsub s (vscale (2 * udot) zd)) (vscale uddot z)) =
  dot s z - 2 * udot * dot zd z - uddot * dot z z.
Proof. unfold dot, vsub, vscale; simpl; ring. Qed.

(** X7.  For a unit thrust direction [z_b] and a non-zero [u], the rates
    computed by lines 83-86 are those of a vector that stays on the unit
    sphere: [zdotdes] is orthogonal to [z_b], and
    z_b . zddotdes = - zdotdes . zdotdes. *)
Theorem z_rates_unit_sphere (u : R) (z_b jerkdes snapdes : V3) :
  dot z_b z_b = 1 -> u <> 0 ->
  exists zdotdes zddotdes : V3,
    z_rates u z_b jerkdes snapdes
      = (dot jerkdes z_b, Finite zdotdes, Finite zddotdes) /\
    dot zdotdes z_b = 0 /\
    dot z_b zddotdes = - dot zdotdes zdotdes.
Proof.
  intros Hz Hu. do 2 eexists. split; [apply z_rates_ok, Hu |].
  set (zd := over (vsub jerkdes (vscale (dot jerkdes z_b) z_b)) u).
  assert (Hzd : dot zd z_b = 0).
  { unfold zd. rewrite dot_over_l, dot_reject, Hz. unfold Rdiv; ring. }
  split; [exact Hzd |].
  rewrite dot_over_r, dot_zddot_numerator, Hzd, Hz. field. exact Hu.
Qed.

Lemma z_rates_unit_sphere_witness :
  exists zdotdes zddotdes : V3,
    z_rates 2 e3 (mkV3 1 2 3) (mkV3 4 5 6)
      = (dot (mkV3 1 2 3) e3, Finite zdotdes, Finite zddotdes) /\
    dot zdotdes e3 = 0 /\
    dot e3 zddotdes = - dot zdotdes zdotdes.
Proof.
  apply (z_rates_unit_sphere 2 e3 (mkV3 1 2 3) (mkV3 4 5 6)).
  - unfold dot, e3; simpl; ring.
  - lra.
Defined.

(** ** More on the base controller *)

Lemma attitude_loop_thrust get_xdot_xddot krot kang metric (m : Model)
    (state : State) (yawvel yawacc : R) (rot_des : Rot)
    (x_b y_b z_b : V3) (u : R) (zd zdd : V3) :
  fst (attitude_loop get_xdot_xddot krot kang metric m state yawvel yawacc
         rot_des x_b y_b z_b u zd zdd) = mass m * u.
Proof.
  unfold attitude_loop.
  destruct (get_xdot_xddot yawvel yawacc x_b z_b zd zdd). reflexivity.
Qed.

Lemma rot_from_z_yaw_zyx_fault (z : V3) (yaw : R) (f : fault) :
  rot_from_z_yaw_zyx z yaw = Fail f -> f = DivByZero.
Proof.
  unfold rot_from_z_yaw_zyx, normalized, vdiv.
  destruct (Req_dec_T (norm z) 0); cbn [rbind]; [congruence |].
  destruct (Req_dec_T _ 0); cbn [rbind]; congruence.
Qed.

Lemma attitude_floats_thrust get_xdot_xddot krot kang metric (m : Model)
    (state : State) (yawvel yawacc : R) (rot_des : Rot)
    (x_b y_b z_b : V3) (u : R) (zd zdd : FArr) :
  fst (attitude_floats get_xdot_xddot krot kang metric m state yawvel yawacc
         rot_des x_b y_b z_b u zd zdd) = mass m * u.
Proof.
  unfold attitude_floats. destruct zd as [zd |], zdd as [zdd |]; try reflexivity.
  rewrite <- (attitude_loop_thrust get_xdot_xddot krot kang metric m state
                yawvel yawacc rot_des x_b y_b z_b u zd zdd).
  destruct (attitude_loop _ _ _ _ _ _ _ _ _ _ _ _ _ _ _); reflexivity.
Qed.

Lemma attitude_floats_finite get_xdot_xddot krot kang metric (m : Model)
    (state : State) (yawvel yawacc : R) (rot_des : Rot)
    (x_b y_b z_b : V3) (u : R) (zd zdd : V3) :
  snd (attitude_floats get_xdot_xddot krot kang metric m state yawvel yawacc
         rot_des x_b y_b z_b u (Finite zd) (Finite zdd))
  = Finite (snd (attitude_loop get_xdot_xddot krot kang metric m state
                   yawvel yawacc rot_des x_b y_b z_b u zd zdd)).
Proof.
  unfold attitude_floats.
  destruct (attitude_loop _ _ _ _ _ _ _ _ _ _ _ _ _ _ _); reflexivity.
Qed.

(** [flat_tail] once the policy has returned [u]: the thrust is mass * u,
    and the torque has real entries exactly when [u] is not zero. *)
Lemma flat_tail_returns get_xdot_xddot (c : Controller) (t : R) (state : State)
    (rot_des : Rot) (x_b y_b z_b a j s : V3) (u : R) :
  u_f c a (rot state) = Ok u ->
  exists tq,
    flat_tail get_xdot_xddot c t state rot_des x_b y_b z_b a j s
      = Ok (mass (model c) * u, tq) /\
    (u <> 0 -> exists v : V3, tq = Finite v) /\
    (u = 0 -> tq = NonFinite).
Proof.
  intros Hu. unfold flat_tail. rewrite Hu. cbn [rbind].
  destruct (Req_dec_T u 0) as [E | E].
  - subst u. rewrite z_rates_zero. cbn [attitude_floats].
    exists NonFinite. split; [reflexivity |]. split; [| reflexivity].
    intros H. exfalso. now apply H.
  - rewrite z_rates_ok by assumption.
    eexists. split.
    + f_equal. rewrite (surjective_pairing (attitude_floats _ _ _ _ _ _ _ _ _ _ _ _ _ _ _)).
      rewrite attitude_floats_thrust, attitude_floats_finite. reflexivity.
    + split; [intros _; eexists; reflexivity | intros H; contradiction].
Qed.

Lemma response_value_returns get_xdot_xddot (t : R) (state : State)
    (c : Controller) (u : R) :
  u_f c (accel_des_value c t state) (rot state) = Ok u ->
  accel_des_value c t state <> vzero ->
  cross (mkV3 (- sin (ref_yaw (ref c) t)) (cos (ref_yaw (ref c) t)) 0)
        (accel_des_value c t state) <> vzero ->
  exists tq,
    response_value get_xdot_xddot c t state = Ok (out (mass (model c) * u) tq) /\
    (u <> 0 -> exists v : V3, tq = Finite v) /\
    (u = 0 -> tq = NonFinite).
Proof.
  intros Hu Ha Hc. unfold response_value.
  set (a := accel_des_value c t state) in *.
  pose proof (norm_nonzero a Ha) as Hn.
  rewrite vdiv_ok by assumption. cbn [rbind].
  assert (Hz : over a (norm a) <> vzero) by (apply over_nonzero; assumption).
  assert (Hw : cross (mkV3 (- sin (ref_yaw (ref c) t))
                           (cos (ref_yaw (ref c) t)) 0)
                     (over a (norm a)) <> vzero).
  { rewrite cross_over_r. apply over_nonzero; assumption. }
  rewrite (rot_from_z_yaw_zyx_ok _ _ Hz Hw). cbn [rbind].
  match goal with
  | |- context [flat_tail ?g ?c ?t ?st ?rd ?x ?y ?z ?a ?j ?s] =>
      destruct (flat_tail_returns g c t st rd x y z a j s u Hu)
        as (tq & Htq & Hfin & Hnan)
  end.
  rewrite Htq. cbn [rbind fst snd]. exists tq. auto.
Qed.

Lemma response_value_singular get_xdot_xddot (t : R) (state : State)
    (c : Controller) :
  accel_des_value c t state = vzero \/
  cross (mkV3 (- sin (ref_yaw (ref c) t)) (cos (ref_yaw (ref c) t)) 0)
        (accel_des_value c t state) = vzero ->
  response_value get_xdot_xddot c t state = Fail DivByZero.
Proof.
  intros Hsing. unfold response_value.
  set (a := accel_des_value c t state) in *.
  destruct (Req_dec_T (norm a) 0) as [E | E].
  { rewrite E, vdiv_zero. reflexivity. }
  rewrite vdiv_ok by assumption. cbn [rbind].
  assert (Hs : cross (mkV3 (- sin (ref_yaw (ref c) t))
                           (cos (ref_yaw (ref c) t)) 0)
                     (over a (norm a)) = vzero).
  { destruct Hsing as [Ha | Hc].
    - exfalso. apply E. rewrite Ha. apply norm_vzero.
    - rewrite cross_over_r, Hc. apply over_vzero. }
  rewrite (rot_from_z_yaw_zyx_singular _ _ Hs). reflexivity.
Qed.

(** X8.  When the thrust policy returns [u], [response] returns a command
    exactly when the desired specific force [accel_des] is neither zero
    nor along the yaw axis (-sin yaw, cos yaw, 0); on those two inputs the
    frame cannot be built and the call raises.  The command's thrust is
    mass * u.  Its torque has real entries when [u] is not zero; when [u]
    is zero the call still returns, with a torque that is nan. *)
Theorem response_defined get_xdot_xddot (t : R) (state : State)
    (c : Controller) (u : R) :
  u_f c (accel_des_value c t state) (rot state) = Ok u ->
  let a := accel_des_value c t state in
  let y_c := mkV3 (- sin (ref_yaw (ref c) t)) (cos (ref_yaw (ref c) t)) 0 in
  (a <> vzero /\ cross y_c a <> vzero ->
   exists tq,
     fst (response get_xdot_xddot t state c) = Ok (out (mass (model c) * u) tq) /\
     (u <> 0 -> exists v : V3, tq = Finite v) /\
     (u = 0 -> tq = NonFinite)) /\
  (a = vzero \/ cross y_c a = vzero ->
   fst (response get_xdot_xddot t state c) = Fail DivByZero).
Proof.
  intros Hu a y_c. rewrite response_run. cbn [fst]. split.
  - intros (Ha & Hc). now apply response_value_returns.
  - intros Hsing. now apply response_value_singular.
Qed.

Lemma tilted_regular (metric : Rot -> Rot -> V3) uf (I : Mat) :
  let c := init (hover_model I) metric uf hover_ref in
  accel_des_value c 0 tilted_state <> vzero /\
  cross (mkV3 (- sin (ref_yaw (ref c) 0)) (cos (ref_yaw (ref c) 0)) 0)
        (accel_des_value c 0 tilted_state) <> vzero.
Proof.
  intros c. unfold c. rewrite tilted_accel_des. split.
  - intros E. apply (f_equal vz) in E. simpl in E. lra.
  - apply upward_zyx_regular. simpl. lra.
Qed.

Lemma tilted_thrust (metric : Rot -> Rot -> V3) (I : Mat) :
  let c := init (hover_model I) metric thrust_project_z hover_ref in
  u_f c (accel_des_value c 0 tilted_state) (rot tilted_state) = Ok 0.
Proof.
  intros c. unfold c. rewrite tilted_accel_des.
  cbn [u_f init rot tilted_state]. rewrite thrust_project_z_value. f_equal.
  unfold dot, apply, mat_vec, column_stack, dot; simpl; ring.
Qed.

Lemma response_defined_witness :
  let c := init (hover_model eye) axis_metric thrust_project_z hover_ref in
  exists tq,
    fst (response rigid_xdot_xddot 0 tilted_state c)
      = Ok (out (mass (model c) * 0) tq) /\
    (0 <> 0 -> exists v : V3, tq = Finite v) /\
    (0 = 0 -> tq = NonFinite).
Proof.
  intros c.
  exact (proj1 (response_defined rigid_xdot_xddot 0 tilted_state c 0
                  (tilted_thrust axis_metric eye))
               (tilted_regular axis_metric thrust_project_z eye)).
Defined.

Lemma vsub_shift (p r d : V3) : vsub (vadd p d) (vadd r d) = vsub p r.
Proof. apply v3_ext; simpl; ring. Qed.

Lemma response_value_translation get_xdot_xddot (t : R) (state : State)
    (c : Controller) (d : V3) :
  response_value get_xdot_xddot (with_ref c (moved_ref (ref c) d)) t
    (with_pos state (vadd (pos state) d))
  = response_value get_xdot_xddot c t state.
Proof.
  unfold response_value, accel_des_value, flat_tail.
  cbn [with_ref with_pos moved_ref ref ref_pos ref_vel ref_acc ref_jerk ref_snap
       ref_yaw ref_yawvel ref_yawacc Kpos Kvel Krot Kang gvec rot_metric u_f
       model pos vel rot ang].
  rewrite vsub_shift. reflexivity.
Qed.

(** X9.  [response] sees position only through the position error: moving
    the vehicle and the reference trajectory by the same offset [d] leaves
    the outcome unchanged. *)
Theorem response_translation get_xdot_xddot (t : R) (state : State)
    (c : Controller) (d : V3) :
  fst (response get_xdot_xddot t (with_pos state (vadd (pos state) d))
         (with_ref c (moved_ref (ref c) d)))
  = fst (response get_xdot_xddot t state c).
Proof.
  rewrite !response_run. cbn [fst]. apply response_value_translation.
Qed.

Lemma attitude_loop_at_rest get_xdot_xddot krot kang metric (m : Model)
    (state : State) (r : Rot) (x_b y_b : V3) (u : R) :
  rot state = r -> ang state = vzero ->
  get_xdot_xddot 0 0 x_b e3 vzero vzero = (vzero, vzero) ->
  metric r r = vzero ->
  attitude_loop get_xdot_xddot krot kang metric m state 0 0
    r x_b y_b e3 u vzero vzero
  = (mass m * u, vzero).
Proof.
  intros Hr Ha Hget Hmetric. unfold attitude_loop.
  rewrite (cross_vzero_r e3), Hget, Hr, Ha, Hmetric.
  f_equal. apply v3_ext;
    unfold torque_from_aa, apply, inv, transpose, mat_vec, dot; simpl; ring.
Qed.

Lemma apply_yaw_rot_e1 (yaw : R) :
  apply (yaw_rot yaw) e1 = mkV3 (cos yaw) (sin yaw) 0.
Proof. apply apply_column_stack_e1. Qed.

Lemma apply_yaw_rot_e2 (yaw : R) :
  apply (yaw_rot yaw) e2 = mkV3 (- sin yaw) (cos yaw) 0.
Proof. apply apply_column_stack_e2. Qed.

Lemma hover_any_accel_des metric uf (m : Model) (p : V3) (yaw t : R) (r : Rot) :
  accel_des_value (init m metric uf (const_ref p yaw)) t (mkState p vzero r vzero)
  = mkV3 0 0 (g m).
Proof.
  apply v3_ext; unfold accel_des_value; simpl; unfold dot; simpl; ring.
Qed.

Lemma hover_any_value get_xdot_xddot metric uf (m : Model) (p : V3) (yaw t : R) :
  0 < g m ->
  get_xdot_xddot 0 0 (mkV3 (cos yaw) (sin yaw) 0) e3 vzero vzero = (vzero, vzero) ->
  metric (yaw_rot yaw) (yaw_rot yaw) = vzero ->
  uf (mkV3 0 0 (g m)) (yaw_rot yaw) = Ok (g m) ->
  response_value get_xdot_xddot (init m metric uf (const_ref p yaw)) t
    (mkState p vzero (yaw_rot yaw) vzero)
  = Ok (out (mass m * g m) vzero).
Proof.
  intros Hg Hget Hmetric Huf.
  unfold response_value. rewrite hover_any_accel_des.
  rewrite norm_axis_z by lra. rewrite vdiv_ok by lra.
  assert (E : over (mkV3 0 0 (g m)) (g m) = mkV3 0 0 1).
  { apply v3_ext; unfold over; simpl; field; lra. }
  rewrite E. cbn [rbind].
  cbn [ref init ref_yaw ref_jerk ref_snap const_ref].
  rewrite rot_from_z_yaw_zyx_vertical by lra. cbn [rbind].
  rewrite apply_yaw_rot_e1, apply_yaw_rot_e2.
  unfold flat_tail. cbn [u_f init rot]. rewrite Huf. cbn [rbind].
  rewrite z_rates_rest by lra. cbn [rbind attitude_floats].
  cbn [ref init ref_yawvel ref_yawacc const_ref Krot Kang rot_metric model].
  change (mkV3 0 0 1) with e3.
  rewrite (attitude_loop_at_rest get_xdot_xddot _ _ metric m
             (mkState p vzero (yaw_rot yaw) vzero) (yaw_rot yaw)
             _ _ (g m) eq_refl eq_refl Hget Hmetric).
  reflexivity.
Qed.

(** X10.  Hover at any place and heading: with the vehicle at rest at the
    reference position [p], its attitude the turn by the reference yaw
    about the vertical, a reference that stands still, and g > 0,
    [response] returns thrust mass * g and zero torque, for any mass and
    inertia, under the projection policy and under the norm policy alike.
    [get_xdot_xddot] is assumed to return zero rates for a frame at rest,
    and the rotation metric to be zero on equal rotations. *)
Theorem hover_anywhere get_xdot_xddot (metric : Rot -> Rot -> V3) (m : Model)
    (p : V3) (yaw t : R) :
  0 < g m ->
  get_xdot_xddot 0 0 (mkV3 (cos yaw) (sin yaw) 0) e3 vzero vzero = (vzero, vzero) ->
  (forall r, metric r r = vzero) ->
  fst (response get_xdot_xddot t (mkState p vzero (yaw_rot yaw) vzero)
         (init m metric thrust_project_z (const_ref p yaw)))
  = Ok (out (mass m * g m) vzero) /\
  fst (response get_xdot_xddot t (mkState p vzero (yaw_rot yaw) vzero)
         (init m metric thrust_norm_accel (const_ref p yaw)))
  = Ok (out (mass m * g m) vzero).
Proof.
  intros Hg Hget Hmetric. rewrite !response_run. cbn [fst].
  split; apply hover_any_value; try assumption; try apply Hmetric.
  - rewrite thrust_project_z_value, apply_e3. unfold yaw_rot.
    rewrite col2_column_stack. f_equal. unfold dot; simpl; ring.
  - unfold thrust_norm_accel. rewrite norm_axis_z by lra. reflexivity.
Qed.

Lemma rigid_xdot_xddot_at_rest (x : V3) :
  rigid_xdot_xddot 0 0 x e3 vzero vzero = (vzero, vzero).
Proof.
  unfold rigid_xdot_xddot. f_equal; apply v3_ext; simpl; ring.
Qed.

Lemma hover_anywhere_witness :
  let m := mkModel 2 9.81 (diag 1 1 2) in
  let s := mkState (mkV3 1 2 3) vzero (yaw_rot 1) vzero in
  fst (response rigid_xdot_xddot 0 s
         (init m axis_metric thrust_project_z (const_ref (mkV3 1 2 3) 1)))
  = Ok (out (2 * 9.81) vzero) /\
  fst (response rigid_xdot_xddot 0 s
         (init m axis_metric thrust_norm_accel (const_ref (mkV3 1 2 3) 1)))
  = Ok (out (2 * 9.81) vzero).
Proof.
  intros m s.
  apply (hover_anywhere rigid_xdot_xddot axis_metric m (mkV3 1 2 3) 1 0).
  - simpl. lra.
  - apply rigid_xdot_xddot_at_rest.
  - apply axis_metric_aligned.
Defined.

Lemma flat_tail_raises get_xdot_xddot (c : Controller) (t : R) (state : State)
    (rot_des : Rot) (x_b y_b z_b a j s : V3) (e : fault) :
  (forall a r, u_f c a r = Fail e) ->
  flat_tail get_xdot_xddot c t state rot_des x_b y_b z_b a j s = Fail e.
Proof. intros H. unfold flat_tail. rewrite H. reflexivity. Qed.

(** X11.  A controller whose thrust policy raises on every call, as
    [thrust_maintain_z] does, never returns a command: [response] stops
    with the policy's exception whenever the divisions before line 82 are
    defined, and with a fault in any case. *)
Theorem response_policy_raises get_xdot_xddot (t : R) (state : State)
    (c : Controller) (e : fault) :
  (forall a r, u_f c a r = Fail e) ->
  let a := accel_des_value c t state in
  let y_c := mkV3 (- sin (ref_yaw (ref c) t)) (cos (ref_yaw (ref c) t)) 0 in
  (exists f, fst (response get_xdot_xddot t state c) = Fail f) /\
  (a <> vzero -> cross y_c a <> vzero ->
   fst (response get_xdot_xddot t state c) = Fail e).
Proof.
  intros H a y_c. rewrite response_run. cbn [fst].
  unfold response_value. fold a. split.
  - destruct (vdiv a (norm a)) as [z_b | f]; cbn [rbind]; [| now exists f].
    destruct (rot_from_z_yaw_zyx z_b (ref_yaw (ref c) t)) as [rd | f];
      cbn [rbind]; [| now exists f].
    rewrite (flat_tail_raises _ _ _ _ _ _ _ _ _ _ _ e H). now exists e.
  - intros Ha Hc. pose proof (norm_nonzero a Ha) as Hn.
    rewrite vdiv_ok by assumption. cbn [rbind].
    assert (Hz : over a (norm a) <> vzero) by (apply over_nonzero; assumption).
    assert (Hw : cross y_c (over a (norm a)) <> vzero).
    { rewrite cross_over_r. apply over_nonzero; assumption. }
    rewrite (rot_from_z_yaw_zyx_ok _ _ Hz Hw). cbn [rbind].
    rewrite (flat_tail_raises _ _ _ _ _ _ _ _ _ _ _ e H). reflexivity.
Qed.

Lemma response_policy_raises_witness :
  let c := init (hover_model eye) axis_metric thrust_maintain_z hover_ref in
  (exists f, fst (response rigid_xdot_xddot 0 hover_state c) = Fail f) /\
  fst (response rigid_xdot_xddot 0 hover_state c) = Fail (NameError "z_w").
Proof.
  intros c.
  destruct (response_policy_raises rigid_xdot_xddot 0 hover_state c
              (NameError "z_w") (fun _ _ => eq_refl)) as [H1 H2].
  split; [exact H1 |]. apply H2.
  - unfold c. rewrite hover_accel_des. intros E. apply (f_equal vz) in E.
    simpl in E. lra.
  - unfold c. rewrite hover_accel_des. apply upward_zyx_regular. simpl. lra.
Defined.

(** ** More on the learning controller *)

Lemma vadd_vsub_assoc (x a e : V3) : vadd x (vsub a e) = vsub (vadd x a) e.
Proof. apply v3_ext; simpl; ring. Qed.

Lemma learn_value_shifted get_xdot_xddot (c : Controller) (L : Learner)
    (t : R) (state : State) :
  (let? p := learn_value get_xdot_xddot c L t state in
   Ok (out (fst p) (snd p)))%res
  = response_value get_xdot_xddot (with_ref c (shifted_ref c L t state)) t state.
Proof.
  unfold learn_value, response_value, corrected_accel.
  assert (Ea : accel_des_value (with_ref c (shifted_ref c L t state)) t state
               = vsub (accel_des_value c t state)
                      (testpoint L t state (accel_des_value c t state))).
  { unfold accel_des_value at 1.
    cbn [with_ref shifted_ref ref ref_pos ref_vel ref_acc Kpos Kvel gvec].
    rewrite vadd_vsub_assoc. reflexivity. }
  rewrite Ea.
  set (a := vsub (accel_des_value c t state)
                 (testpoint L t state (accel_des_value c t state))).
  cbn [with_ref shifted_ref ref ref_jerk ref_snap ref_yaw].
  fold a.
  destruct (Req_dec_T (norm a) 0) as [E | E].
  - rewrite E, vdiv_zero. reflexivity.
  - rewrite vdiv_ok by assumption. cbn [rbind].
    pose proof (norm_unit a (norm_nonzero_vec a E)) as Hunit.
    set (z_b := over a (norm a)) in *.
    unfold rot_from_z_yaw_zyx. rewrite (normalized_unit z_b Hunit). cbn [rbind].
    unfold normalized.
    destruct (vdiv (cross (mkV3 (- sin (ref_yaw (ref c) t))
                                (cos (ref_yaw (ref c) t)) 0) z_b)
                   (norm (cross (mkV3 (- sin (ref_yaw (ref c) t))
                                      (cos (ref_yaw (ref c) t)) 0) z_b)))
      as [x_b |]; cbn [rbind]; [| reflexivity].
    unfold from_matrix.
    rewrite apply_column_stack_e1, apply_column_stack_e2. reflexivity.
Qed.

(** X12.  The learning controller is the base controller on a corrected
    reference: for every learner, controller, time and state, its
    [response] returns what [CascadedController.response] returns when the
    reference acceleration, jerk and snap are lowered by the learner's
    corrections of lines 157-168 (the acceleration error, and the two
    chain-rule terms built from [dvel] and [dpos]). *)
Theorem learn_is_base_on_shifted_ref get_xdot_xddot (t : R) (state : State)
    (w : World) :
  fst (response_learn get_xdot_xddot t state w)
  = fst (response get_xdot_xddot t state
           (with_ref (self_ctrl w)
              (shifted_ref (self_ctrl w) (accel_learner w) t state))).
Proof.
  rewrite response_learn_run, response_run. cbn [fst].
  rewrite <- learn_value_shifted.
  destruct (learn_value get_xdot_xddot (self_ctrl w) (accel_learner w) t state);
    reflexivity.
Qed.

Lemma learn_value_raises get_xdot_xddot (c : Controller) (L : Learner)
    (t : R) (state : State) (e : fault) :
  (forall a r, u_f c a r = Fail e) ->
  exists f, learn_value get_xdot_xddot c L t state = Fail f.
Proof.
  intros H. unfold learn_value.
  destruct (vdiv _ _) as [z_b | f]; cbn [rbind]; [| now exists f].
  destruct (vdiv _ _) as [x_b | f]; cbn [rbind]; [| now exists f].
  rewrite (flat_tail_raises _ _ _ _ _ _ _ _ _ _ _ e H). now exists e.
Qed.

(** X13.  When the thrust policy raises on every call, as
    [thrust_maintain_z] does, a call of the learning controller's
    [response] returns no command; by then it has made its three queries
    to the learner, and it records no datapoint. *)
Theorem learn_policy_raises get_xdot_xddot (t : R) (state : State)
    (w : World) (e : fault) :
  (forall a r, u_f (self_ctrl w) a r = Fail e) ->
  (exists f, fst (response_learn get_xdot_xddot t state w) = Fail f) /\
  calls (snd (response_learn get_xdot_xddot t state w)) =
    calls w ++
    [CallTestpoint t state (accel_des_value (self_ctrl w) t state);
     CallDpos t state (corrected_accel (self_ctrl w) (accel_learner w) t state);
     CallDvel t state (corrected_accel (self_ctrl w) (accel_learner w) t state)].
Proof.
  intros H. rewrite response_learn_run.
  destruct (learn_value_raises get_xdot_xddot (self_ctrl w) (accel_learner w)
              t state e H) as [f Hf].
  rewrite Hf. cbn [fst snd]. split; [now exists f |].
  apply calls_after_queries.
Qed.

Lemma learn_policy_raises_witness :
  let c := init (hover_model eye) axis_metric thrust_maintain_z hover_ref in
  let w := empty_world c zero_learner in
  (exists f, fst (response_learn rigid_xdot_xddot 0 hover_state w) = Fail f) /\
  calls (snd (response_learn rigid_xdot_xddot 0 hover_state w)) =
    calls w ++
    [CallTestpoint 0 hover_state (accel_des_value c 0 hover_state);
     CallDpos 0 hover_state (corrected_accel c zero_learner 0 hover_state);
     CallDvel 0 hover_state (corrected_accel c zero_learner 0 hover_state)].
Proof.
  intros c w.
  exact (learn_policy_raises rigid_xdot_xddot 0 hover_state w
           (NameError "z_w") (fun _ _ => eq_refl)).
Defined.

(** ** The attitude loop in closed form *)

Lemma dot_vsub_r (a b c : V3) : dot a (vsub b c) = dot a b - dot a c.
Proof. unfold dot, vsub; simpl; ring. Qed.

Lemma basis_identity (x y z v : V3) :
  vscale (dot x (cross y z)) v =
  vadd (vadd (vscale (dot x v) (cross y z)) (vscale (dot y v) (cross z x)))
       (vscale (dot z v) (cross x y)).
Proof. apply v3_ext; unfold dot, cross, vscale, vadd; simpl; ring. Qed.

Lemma triple_cyclic_1 (x y z : V3) : dot y (cross z x) = dot x (cross y z).
Proof. unfold dot, cross; simpl; ring. Qed.

Lemma triple_cyclic_2 (x y z : V3) : dot z (cross x y) = dot x (cross y z).
Proof. unfold dot, cross; simpl; ring. Qed.

Section RightHanded.

Variables x y z : V3.
Hypothesis Hxx : dot x x = 1.
Hypothesis Hyy : dot y y = 1.
Hypothesis Hzz : dot z z = 1.
Hypothesis Hxy : dot x y = 0.
Hypothesis Hxz : dot x z = 0.
Hypothesis Hyz : dot y z = 0.
Hypothesis Hdet : dot x (cross y z) = 1.

Lemma right_handed_yz : cross y z = x.
Proof.
  pose proof (basis_identity x y z (vsub (cross y z) x)) as B.
  rewrite !dot_vsub_r, Hdet, Hxx, dot_cross_self_l, dot_cross_self_r in B.
  rewrite (dot_comm y x), (dot_comm z x), Hxy, Hxz in B.
  apply v3_ext.
  - apply (f_equal vx) in B. simpl in B. simpl. lra.
  - apply (f_equal vy) in B. simpl in B. simpl. lra.
  - apply (f_equal vz) in B. simpl in B. simpl. lra.
Qed.

Lemma right_handed_zx : cross z x = y.
Proof.
  pose proof (basis_identity x y z (vsub (cross z x) y)) as B.
  rewrite !dot_vsub_r, Hdet, Hyy, (triple_cyclic_1 x y z), Hdet in B.
  rewrite dot_cross_self_r, dot_cross_self_l, Hxy, (dot_comm z y), Hyz in B.
  apply v3_ext.
  - apply (f_equal vx) in B. simpl in B. simpl. lra.
  - apply (f_equal vy) in B. simpl in B. simpl. lra.
  - apply (f_equal vz) in B. simpl in B. simpl. lra.
Qed.

Lemma right_handed_xy : cross x y = z.
Proof.
  pose proof (basis_identity x y z (vsub (cross x y) z)) as B.
  rewrite !dot_vsub_r, Hdet, Hzz, (triple_cyclic_2 x y z), Hdet in B.
  rewrite dot_cross_self_l, dot_cross_self_r, Hxz, Hyz in B.
  apply v3_ext.
  - apply (f_equal vx) in B. simpl in B. simpl. lra.
  - apply (f_equal vy) in B. simpl in B. simpl. lra.
  - apply (f_equal vz) in B. simpl in B. simpl. lra.
Qed.

Lemma right_handed_expand (w : V3) :
  vadd (vadd (vscale (dot x w) x) (vscale (dot y w) y)) (vscale (dot z w) z) = w.
Proof.
  pose proof (basis_identity x y z w) as B.
  rewrite Hdet, right_handed_yz, right_handed_zx, right_handed_xy in B.
  rewrite <- B. apply v3_ext; simpl; ring.
Qed.

End RightHanded.

Lemma is_frame_dots (r : Rot) :
  is_frame r ->
  dot (col0 r) (col0 r) = 1 /\ dot (col1 r) (col1 r) = 1 /\
  dot (col2 r) (col2 r) = 1 /\ dot (col0 r) (col1 r) = 0 /\
  dot (col0 r) (col2 r) = 0 /\ dot (col1 r) (col2 r) = 0 /\
  dot (col0 r) (cross (col1 r) (col2 r)) = 1.
Proof.
  intros (H0 & H1 & H2 & H01 & H02 & H12 & Hd).
  repeat split; try assumption.
  - rewrite <- norm_sqr, H0; ring.
  - rewrite <- norm_sqr, H1; ring.
  - rewrite <- norm_sqr, H2; ring.
Qed.

Lemma apply_columns (r : Rot) (a b c : R) :
  apply r (mkV3 a b c) =
  vadd (vadd (vscale a (col0 r)) (vscale b (col1 r))) (vscale c (col2 r)).
Proof.
  apply v3_ext; unfold apply, mat_vec, dot, col0, col1, col2; simpl; ring.
Qed.

Lemma apply_inv_dots (r : Rot) (w : V3) :
  apply (inv r) w = mkV3 (dot (col0 r) w) (dot (col1 r) w) (dot (col2 r) w).
Proof. reflexivity. Qed.

(** Lines 95-98 and 103-109: a vector orthogonal to the z axis of the
    frame [r], taken to the frame, cut to its first two components,
    completed by [c] and taken back, is the vector plus [c] times the z
    axis. *)
Lemma frame_detour (r : Rot) (w : V3) (c : R) :
  is_frame r -> dot (col2 r) w = 0 ->
  apply r (mkV3 (vx (apply (inv r) w)) (vy (apply (inv r) w)) c)
  = vadd w (vscale c (col2 r)).
Proof.
  intros Hf Hw.
  destruct (is_frame_dots r Hf) as (Hxx & Hyy & Hzz & Hxy & Hxz & Hyz & Hd).
  rewrite apply_inv_dots. cbn [vx vy]. rewrite apply_columns.
  pose proof (right_handed_expand (col0 r) (col1 r) (col2 r)
                Hxx Hyy Hzz Hxy Hxz Hyz Hd w) as E.
  rewrite Hw in E. rewrite <- E at 3.
  apply v3_ext; simpl; ring.
Qed.

(** X14.  When [rot_des] is a right-handed orthonormal frame whose z axis
    is [z_b], the passage of lines 94-109 through the desired body frame
    loses nothing: the desired angular velocity in the world frame is
    z_b x zdotdes + (xdot . y_b) z_b, the desired angular acceleration is
    z_b x (zddotdes - (z_b x zdotdes) x zdotdes)
    + ((xddot - omega x xdot) . y_b) z_b, and the command is the thrust
    mass * u with the torque of
    -Krot rot_error - Kang (ang - R^T omega) + R^T alpha,
    R the current attitude. *)
Theorem attitude_loop_closed_form get_xdot_xddot krot kang
    (metric : Rot -> Rot -> V3) (m : Model) (state : State)
    (yawveldes yawaccdes : R) (rot_des : Rot) (x_b y_b z_b : V3) (u : R)
    (zdotdes zddotdes : V3) :
  is_frame rot_des -> col2 rot_des = z_b ->
  attitude_loop get_xdot_xddot krot kang metric m state yawveldes yawaccdes
    rot_des x_b y_b z_b u zdotdes zddotdes
  = let '(xdot, xddot) :=
      get_xdot_xddot yawveldes yawaccdes x_b z_b zdotdes zddotdes in
    let omega_w := vadd (cross z_b zdotdes) (vscale (dot xdot y_b) z_b) in
    let alpha_w :=
      vadd (cross z_b (vsub zddotdes (cross (cross z_b zdotdes) zdotdes)))
           (vscale (dot (vsub xddot (cross omega_w xdot)) y_b) z_b) in
    (mass m * u,
     torque_from_aa
       (vadd (vsub (vneg (mat_vec krot (metric (rot state) rot_des)))
                   (mat_vec kang
                      (vsub (ang state) (apply (inv (rot state)) omega_w))))
             (apply (inv (rot state)) alpha_w))
       (inertia m) (ang state)).
Proof.
  intros Hf Hz. unfold attitude_loop.
  destruct (get_xdot_xddot yawveldes yawaccdes x_b z_b zdotdes zddotdes)
    as [xdot xddot].
  rewrite !frame_detour
    by (try assumption; rewrite Hz; apply dot_cross_self_l).
  rewrite Hz. reflexivity.
Qed.

Lemma is_frame_identity : is_frame identity.
Proof.
  unfold is_frame, det.
  change (col0 identity) with e1. change (col1 identity) with e2.
  change (col2 identity) with e3.
  repeat split.
  - exact norm_e1.
  - apply norm_of_dot_one. unfold dot, e2; simpl; ring.
  - exact norm_e3.
  - unfold dot; simpl; ring.
  - unfold dot; simpl; ring.
  - unfold dot; simpl; ring.
  - unfold dot, cross; simpl; ring.
Qed.

Lemma attitude_loop_closed_form_witness :
  attitude_loop rigid_xdot_xddot (diag 120 120 30) (diag 16 16 10) axis_metric
    (hover_model eye) hover_state 1 0 identity e1 e2 e3 2 e1 e2
  = let '(xdot, xddot) := rigid_xdot_xddot 1 0 e1 e3 e1 e2 in
    let omega_w := vadd (cross e3 e1) (vscale (dot xdot e2) e3) in
    let alpha_w :=
      vadd (cross e3 (vsub e2 (cross (cross e3 e1) e1)))
           (vscale (dot (vsub xddot (cross omega_w xdot)) e2) e3) in
    (mass (hover_model eye) * 2,
     torque_from_aa
       (vadd (vsub (vneg (mat_vec (diag 120 120 30)
                            (axis_metric (rot hover_state) identity)))
                   (mat_vec (diag 16 16 10)
                      (vsub (ang hover_state)
                            (apply (inv (rot hover_state)) omega_w))))
             (apply (inv (rot hover_state)) alpha_w))
       (inertia (hover_model eye)) (ang hover_state)).
Proof.
  exact (attitude_loop_closed_form rigid_xdot_xddot (diag 120 120 30)
           (diag 16 16 10) axis_metric (hover_model eye) hover_state 1 0
           identity e1 e2 e3 2 e1 e2 is_frame_identity eq_refl).
Defined.

(** ** When the learning controller returns *)

Lemma learn_value_returns get_xdot_xddot (c : Controller) (L : Learner)
    (t : R) (state : State) (u : R) :
  u_f c (corrected_accel c L t state) (rot state) = Ok u ->
  corrected_accel c L t state <> vzero ->
  cross (mkV3 (- sin (ref_yaw (ref c) t)) (cos (ref_yaw (ref c) t)) 0)
        (corrected_accel c L t state) <> vzero ->
  exists tq,
    learn_value get_xdot_xddot c L t state = Ok (mass (model c) * u, tq) /\
    (u <> 0 -> exists v : V3, tq = Finite v) /\
    (u = 0 -> tq = NonFinite).
Proof.
  intros Hu Ha Hc. unfold learn_value.
  set (a := corrected_accel c L t state) in *.
  pose proof (norm_nonzero a Ha) as Hn.
  rewrite vdiv_ok by assumption. cbn [rbind].
  assert (Hw : cross (mkV3 (- sin (ref_yaw (ref c) t))
                           (cos (ref_yaw (ref c) t)) 0)
                     (over a (norm a)) <> vzero).
  { rewrite cross_over_r. apply over_nonzero; assumption. }
  rewrite vdiv_ok by (apply norm_nonzero, Hw). cbn [rbind].
  apply flat_tail_returns, Hu.
Qed.

Lemma learn_value_singular get_xdot_xddot (c : Controller) (L : Learner)
    (t : R) (state : State) :
  corrected_accel c L t state = vzero \/
  cross (mkV3 (- sin (ref_yaw (ref c) t)) (cos (ref_yaw (ref c) t)) 0)
        (corrected_accel c L t state) = vzero ->
  learn_value get_xdot_xddot c L t state = Fail DivByZero.
Proof.
  intros Hsing. unfold learn_value.
  set (a := corrected_accel c L t state) in *.
  destruct (Req_dec_T (norm a) 0) as [E | E].
  { rewrite E, vdiv_zero. reflexivity. }
  rewrite vdiv_ok by assumption. cbn [rbind].
  set (w := cross (mkV3 (- sin (ref_yaw (ref c) t))
                        (cos (ref_yaw (ref c) t)) 0) (over a (norm a))).
  assert (Hs : w = vzero).
  { unfold w. destruct Hsing as [Ha | Hc].
    - exfalso. apply E. rewrite Ha. apply norm_vzero.
    - rewrite cross_over_r, Hc. apply over_vzero. }
  rewrite Hs, norm_vzero, vdiv_zero. reflexivity.
Qed.

(** X15.  When the thrust policy returns [u] on the corrected specific
    force (the array [accel_des] after line 158), the learning
    controller's [response] returns a command exactly when that force is
    neither zero nor along (-sin yaw, cos yaw, 0); on those two inputs the
    frame cannot be built and the call raises.  A returning call has
    logged the three queries and one datapoint that carries the returned
    pair; the thrust is mass * u, and the torque has real entries when [u]
    is not zero and is nan when [u] is zero. *)
Theorem learn_defined get_xdot_xddot (t : R) (state : State) (w : World) (u : R) :
  let c := self_ctrl w in
  let L := accel_learner w in
  let a1 := corrected_accel c L t state in
  let y_c := mkV3 (- sin (ref_yaw (ref c) t)) (cos (ref_yaw (ref c) t)) 0 in
  u_f c a1 (rot state) = Ok u ->
  (a1 <> vzero /\ cross y_c a1 <> vzero ->
   exists tq,
     fst (response_learn get_xdot_xddot t state w)
       = Ok (out (mass (model c) * u) tq) /\
     calls (snd (response_learn get_xdot_xddot t state w)) =
       calls w ++
       [CallTestpoint t state (accel_des_value c t state);
        CallDpos t state a1;
        CallDvel t state a1;
        CallAddDatapoint t state (mass (model c) * u, tq)] /\
     (u <> 0 -> exists v : V3, tq = Finite v) /\
     (u = 0 -> tq = NonFinite)) /\
  (a1 = vzero \/ cross y_c a1 = vzero ->
   fst (response_learn get_xdot_xddot t state w) = Fail DivByZero).
Proof.
  intros c L a1 y_c Hu. rewrite response_learn_run. fold c L. split.
  - intros (Ha & Hc).
    destruct (learn_value_returns get_xdot_xddot c L t state u Hu Ha Hc)
      as (tq & Htq & Hfin & Hnan).
    rewrite Htq. cbn [fst snd]. exists tq. split; [reflexivity |].
    split; [| split; assumption].
    unfold after_add_datapoint. cbn [calls]. rewrite calls_after_queries.
    rewrite <- app_assoc. reflexivity.
  - intros Hsing.
    rewrite (learn_value_singular get_xdot_xddot c L t state Hsing).
    reflexivity.
Qed.

Lemma tilted_corrected_accel metric uf (I : Mat) (t : R) :
  corrected_accel (init (hover_model I) metric uf hover_ref) zero_learner t
    tilted_state
  = mkV3 0 0 9.81.
Proof.
  unfold corrected_accel. rewrite tilted_accel_des.
  apply v3_ext; simpl; ring.
Qed.

Lemma learn_defined_witness :
  let c := init (hover_model eye) axis_metric thrust_project_z hover_ref in
  let w := empty_world c zero_learner in
  exists tq,
    fst (response_learn rigid_xdot_xddot 0 tilted_state w)
      = Ok (out (mass (model c) * 0) tq) /\
    calls (snd (response_learn rigid_xdot_xddot 0 tilted_state w)) =
      calls w ++
      [CallTestpoint 0 tilted_state (accel_des_value c 0 tilted_state);
       CallDpos 0 tilted_state (corrected_accel c zero_learner 0 tilted_state);
       CallDvel 0 tilted_state (corrected_accel c zero_learner 0 tilted_state);
       CallAddDatapoint 0 tilted_state (mass (model c) * 0, tq)] /\
    (0 <> 0 -> exists v : V3, tq = Finite v) /\
    (0 = 0 -> tq = NonFinite).
Proof.
  intros c w.
  assert (Ha : corrected_accel c zero_learner 0 tilted_state = mkV3 0 0 9.81)
    by apply tilted_corrected_accel.
  assert (Hu : u_f (self_ctrl w)
                 (corrected_accel (self_ctrl w) (accel_learner w) 0 tilted_state)
                 (rot tilted_state) = Ok 0).
  { cbn [self_ctrl accel_learner w empty_world]. rewrite Ha.
    cbn [u_f c init rot tilted_state]. rewrite thrust_project_z_value. f_equal.
    unfold dot, apply, mat_vec, column_stack, dot; simpl; ring. }
  apply (proj1 (learn_defined rigid_xdot_xddot 0 tilted_state w 0 Hu)).
  cbn [self_ctrl accel_learner w empty_world]. rewrite Ha. split.
  - intros E. apply (f_equal vz) in E. simpl in E. lra.
  - apply upward_zyx_regular. simpl. lra.
Defined.

(** X16.  Under the norm policy the thrust magnitude cannot vanish on its
    own: [response] returns a command as soon as the desired specific force
    is neither zero nor along (-sin yaw, cos yaw, 0), and the thrust it
    returns is mass * |accel_des|, never negative for a non-negative
    mass. *)
Theorem response_norm_policy get_xdot_xddot (t : R) (state : State)
    (c : Controller) :
  u_f c = thrust_norm_accel ->
  0 <= mass (model c) ->
  accel_des_value c t state <> vzero ->
  cross (mkV3 (- sin (ref_yaw (ref c) t)) (cos (ref_yaw (ref c) t)) 0)
        (accel_des_value c t state) <> vzero ->
  exists cmd,
    fst (response get_xdot_xddot t state c) = Ok cmd /\
    thrust cmd = mass (model c) * norm (accel_des_value c t state) /\
    0 <= thrust cmd.
Proof.
  intros Hp Hm Ha Hc. rewrite response_run. cbn [fst].
  assert (Hu : u_f c (accel_des_value c t state) (rot state)
               = Ok (norm (accel_des_value c t state))).
  { rewrite Hp. reflexivity. }
  destruct (response_value_returns get_xdot_xddot t state c _ Hu Ha Hc)
    as (tq & Htq & _).
  rewrite Htq. eexists. split; [reflexivity |]. cbn [thrust].
  split; [reflexivity |].
  apply Rmult_le_pos; [exact Hm | apply norm_nonneg].
Qed.

Lemma response_norm_policy_witness :
  let c := init (hover_model eye) axis_metric thrust_norm_accel hover_ref in
  exists cmd,
    fst (response rigid_xdot_xddot 0 hover_state c) = Ok cmd /\
    thrust cmd = mass (model c) * norm (accel_des_value c 0 hover_state) /\
    0 <= thrust cmd.
Proof.
  intros c.
  apply (response_norm_policy rigid_xdot_xddot 0 hover_state c eq_refl).
  - simpl. lra.
  - unfold c. rewrite hover_accel_des. intros E. apply (f_equal vz) in E.
    simpl in E. lra.
  - unfold c. rewrite hover_accel_des. apply upward_zyx_regular. simpl. lra.
Defined.
